(** * hack/cvo-unmanage.py: marking a deployment as unmanaged in the
      ClusterVersion overrides

    The script fetches [clusterversion/version] as JSON, makes sure the object
    carries the [last-applied-configuration] annotation (re-applying the raw
    output until it does), merges an override for [(namespace, name)] into
    [spec.overrides], and applies the document again when the merge changed
    it.

    The development below embeds the script as it is written: JSON values as
    the values [json.loads] builds (dictionaries keep their insertion order),
    Python's dynamic failures as an error monad, the two [oc] subprocesses as
    operations on an abstract cluster that are recorded in a trace, and the
    unbounded [while True] loop as a loop with fuel. *)

From Stdlib Require Import ZArith Floats.SpecFloat.
From stdpp Require Import base option list strings.

Local Open Scope string_scope.
Local Open Scope list_scope.

(** ** Values built by [json.loads] *)

#[warnings="-register-all"]
Inductive json : Type :=
| JNull
| JBool (b : bool)
| JInt (n : Z)
| JFloat (x : spec_float)
| JStr (s : string)
| JArr (items : list json)
| JObj (fields : list (string * json)).

(** A Python [dict] with string keys: association list in insertion order. *)
Abbreviation dict := (list (string * json)).

(** ** Failures of the interpreter *)

Inductive exn : Set := JSONDecodeError | AttributeError | TypeError.

Inductive result (A : Type) : Type :=
| Ok (a : A)
| Raise (e : exn).
Arguments Ok {A} a.
Arguments Raise {A} e.

Definition bind {A B} (r : result A) (k : A -> result B) : result B :=
  match r with
  | Ok a => k a
  | Raise e => Raise e
  end.

Declare Scope py_scope.
Delimit Scope py_scope with py.
Notation "'do' x <- r ; k" := (bind r (fun x => k))
  (at level 10, x pattern, r at level 100, k at level 200) : py_scope.
Local Open Scope py_scope.

(** ** The dictionary, list and string operations the script uses *)

Module Py.

(** [d.get(k)] on the fields of a dictionary: the first binding of [k]. *)
Fixpoint lookup (k : string) (d : dict) : option json :=
  match d with
  | [] => None
  | (k', v) :: d' => if String.eqb k' k then Some v else lookup k d'
  end.

(** [d[k] = v]: an existing key keeps its position, a new key goes last. *)
Fixpoint setitem (k : string) (v : json) (d : dict) : dict :=
  match d with
  | [] => [(k, v)]
  | (k', v') :: d' =>
      if String.eqb k' k then (k', v) :: d' else (k', v') :: setitem k v d'
  end.

(** [obj.get(k, dflt)]; only dictionaries have a [get] attribute. *)
Definition get (obj : json) (k : string) (dflt : json) : result json :=
  match obj with
  | JObj d => Ok (default dflt (lookup k d))
  | _ => Raise AttributeError
  end.

(** [obj.setdefault(k, dflt)]: the value now bound to [k], and the
    dictionary after the call. *)
Definition setdefault (obj : json) (k : string) (dflt : json)
  : result (json * json) :=
  match obj with
  | JObj d =>
      match lookup k d with
      | Some v => Ok (v, obj)
      | None => Ok (dflt, JObj (d ++ [(k, dflt)]))
      end
  | _ => Raise AttributeError
  end.

(** [obj[k] = v]; values without item assignment raise [TypeError]. *)
Definition store (obj : json) (k : string) (v : json) : result json :=
  match obj with
  | JObj d => Ok (JObj (setitem k v d))
  | _ => Raise TypeError
  end.

(** [v == s] for a [str] [s]: values of another type are never equal. *)
Definition eq_str (v : json) (s : string) : bool :=
  match v with
  | JStr t => String.eqb t s
  | _ => false
  end.

(** Truth value of a JSON value, as tested by [not v]. *)
Definition truthy (v : json) : bool :=
  match v with
  | JNull => false
  | JBool b => b
  | JInt n => negb (n =? 0)%Z
  | JFloat (S754_zero _) => false
  | JFloat _ => true
  | JStr "" => false
  | JStr _ => true
  | JArr [] => false
  | JArr _ => true
  | JObj [] => false
  | JObj _ => true
  end.

(** [sub in s] on strings. *)
Fixpoint substring_of (sub s : string) : bool :=
  String.prefix sub s
  || match s with
     | EmptyString => false
     | String _ s' => substring_of sub s'
     end.

(** [k in container]. *)
Definition contains (k : string) (container : json) : result bool :=
  match container with
  | JObj d => Ok (bool_decide (is_Some (lookup k d)))
  | JArr l => Ok (existsb (fun v => eq_str v k) l)
  | JStr s => Ok (substring_of k s)
  | _ => Raise TypeError
  end.

(** The items a [for] loop visits: the elements of a list, the keys of a
    dictionary, the characters of a string. *)
Definition iter (v : json) : result (list json) :=
  match v with
  | JArr l => Ok l
  | JObj d => Ok (map (fun kv => JStr (fst kv)) d)
  | JStr s => Ok (map (fun c => JStr (String c EmptyString)) (String.list_ascii_of_string s))
  | _ => Raise TypeError
  end.

(** [target.append(x)]; only lists have an [append] attribute. *)
Definition append (target : json) (x : json) : result json :=
  match target with
  | JArr l => Ok (JArr (l ++ [x]))
  | _ => Raise AttributeError
  end.

End Py.

(** ** The merge (lines 23-41 of the script) *)

Definition annotation_key : string :=
  "kubectl.kubernetes.io/last-applied-configuration".

(** The dictionary appended when no override matches. *)
Definition new_override (namespace name : string) : json :=
  JObj [("group", JStr "apps/v1");
        ("kind", JStr "Deployment");
        ("name", JStr name);
        ("namespace", JStr namespace);
        ("unmanaged", JBool true)].

(** The test of line 28 on the fields of an override. *)
Definition is_target (namespace name : string) (o : dict) : bool :=
  Py.eq_str (default JNull (Py.lookup "name" o)) name
  && Py.eq_str (default JNull (Py.lookup "namespace" o)) namespace.

(** The [for override in overrides] loop.  [Some (items', modified)] when the
    loop left through [break], with the items as the loop body left them;
    [None] when the loop ran to its end, so that the [else] clause runs. *)
Fixpoint merge_loop (namespace name : string) (items : list json)
  : result (option (list json * bool)) :=
  match items with
  | [] => Ok None
  | override :: rest =>
      do n <- Py.get override "name" JNull;
      do hit <- (if Py.eq_str n name
                 then do ns <- Py.get override "namespace" JNull;
                      Ok (Py.eq_str ns namespace)
                 else Ok false);
      if (hit : bool) then
        do u <- Py.get override "unmanaged" JNull;
        if negb (Py.truthy u) then
          do override' <- Py.store override "unmanaged" (JBool true);
          Ok (Some (override' :: rest, true))
        else Ok (Some (override :: rest, false))
      else
        do found <- merge_loop namespace name rest;
        match found with
        | Some (rest', modified) => Ok (Some (override :: rest', modified))
        | None => Ok None
        end
  end.

(** Writing a mutated item list back into the object the loop iterated over.
    Only the elements of a list are shared with the list; the keys of a
    dictionary and the characters of a string are fresh strings. *)
Definition store_items (overrides : json) (items : list json) : json :=
  match overrides with
  | JArr _ => JArr items
  | _ => overrides
  end.

(** Lines 23-41: returns the document as the statements left it, and
    [modified].  [spec] and [overrides] alias parts of [clusterversion], so
    every change to them is a change to the document. *)
Definition merge_override (namespace name : string) (clusterversion : json)
  : result (json * bool) :=
  do (spec, clusterversion1) <- Py.setdefault clusterversion "spec" (JObj []);
  do (overrides, spec1) <- Py.setdefault spec "overrides" (JArr []);
  do items <- Py.iter overrides;
  do found <- merge_loop namespace name items;
  do (overrides', modified) <-
     match found with
     | Some (items', modified) => Ok (store_items overrides items', modified)
     | None =>
         do appended <- Py.append overrides (new_override namespace name);
         Ok (appended, true)
     end;
  (* [overrides] is the object stored under [spec], itself the object stored
     under [clusterversion]: the document now reads *)
  do spec' <- Py.store spec1 "overrides" overrides';
  do clusterversion' <- Py.store clusterversion1 "spec" spec';
  Ok (clusterversion', modified).

(** ** The script as a process talking to the cluster *)

(** What is written to the standard input of [oc apply -f -]: the bytes
    captured from [oc get] (line 21), or the text of [json.dumps] (line 45). *)
Inductive stdin : Type :=
| InBytes (b : list Byte.byte)
| InText (s : string).

(** The subprocesses the script starts, in order. *)
Inductive event : Type :=
| OcGet
| OcApply (input : stdin).

(** How a run ends.  [Hung] stands for a run still inside the [while True]
    loop when the fuel is spent. *)
Inductive outcome : Type :=
| Exited
| Crashed (e : exn)
| Hung.

(** Exit status of the interpreter: 0 at the end of the script, 1 after an
    exception nobody caught. *)
Definition exit_status (o : outcome) : option Z :=
  match o with
  | Exited => Some 0%Z
  | Crashed _ => Some 1%Z
  | Hung => None
  end.

(** Lines 16-17: the test that leaves the loop. *)
Definition has_annotation (clusterversion : json) : result bool :=
  do metadata <- Py.get clusterversion "metadata" (JObj []);
  do annotations <- Py.get metadata "annotations" (JObj []);
  Py.contains annotation_key annotations.

(** How the [while True] loop of lines 11-21 is left. *)
Inductive fetched : Type :=
| Annotated (clusterversion : json)
| Failed (e : exn)
| Spinning.

(** What the script runs on: the cluster behind [oc], with the answer of
    [oc get] and the effect of [oc apply] on it, and the two functions of the
    [json] library ([None] when [json.loads] raises). *)
Record host : Type := Host {
  World : Type;
  oc_get : World -> list Byte.byte * World;
  oc_apply : stdin -> World -> World;
  json_loads : list Byte.byte -> option json;
  json_dumps : json -> string
}.

Section Script.

Variable h : host.

Record machine : Type := Machine {
  world : World h;
  trace : list event
}.

(** [subprocess.run("oc get clusterversion/version -o json", ...)]:
    the captured standard output. *)
Definition run_get (m : machine) : list Byte.byte * machine :=
  let (stdout, w) := oc_get h (world m) in
  (stdout, Machine w (trace m ++ [OcGet])).

(** [subprocess.run(["oc", "apply", "-f", "-"], input=...)]. *)
Definition run_apply (input : stdin) (m : machine) : machine :=
  Machine (oc_apply h input (world m)) (trace m ++ [OcApply input]).

Fixpoint ensure_annotated (fuel : nat) (m : machine) : fetched * machine :=
  match fuel with
  | O => (Spinning, m)
  | S fuel' =>
      let (stdout, m1) := run_get m in
      match json_loads h stdout with
      | None => (Failed JSONDecodeError, m1)
      | Some clusterversion =>
          match has_annotation clusterversion with
          | Raise e => (Failed e, m1)
          | Ok true => (Annotated clusterversion, m1)
          | Ok false => ensure_annotated fuel' (run_apply (InBytes stdout) m1)
          end
      end
  end.

(** Lines 43-46. *)
Definition commit (clusterversion : json) (modified : bool) (m : machine)
  : machine :=
  if modified then run_apply (InText (json_dumps h clusterversion)) m else m.

(** The whole script, started on a cluster [w] with arguments
    [namespace] and [name]. *)
Definition main (fuel : nat) (namespace name : string) (w : World h)
  : outcome * machine :=
  match ensure_annotated fuel (Machine w []) with
  | (Annotated clusterversion, m) =>
      match merge_override namespace name clusterversion with
      | Ok (clusterversion', modified) =>
          (Exited, commit clusterversion' modified m)
      | Raise e => (Crashed e, m)
      end
  | (Failed e, m) => (Crashed e, m)
  | (Spinning, m) => (Hung, m)
  end.

(** The captured output parses to a document without the annotation. *)
Definition lacks_annotation (stdout : list Byte.byte) : bool :=
  match json_loads h stdout with
  | Some clusterversion =>
      match has_annotation clusterversion with
      | Ok false => true
      | _ => false
      end
  | None => false
  end.

(** One turn of the loop that stays in it: fetch, then apply the bytes
    fetched. *)
Definition turn (m : machine) : machine :=
  let (stdout, m1) := run_get m in
  run_apply (InBytes stdout) m1.

Fixpoint turns (k : nat) (m : machine) : machine :=
  match k with
  | O => m
  | S k' => turns k' (turn m)
  end.

(** The outputs of the next [k] fetches, each followed by its apply. *)
Fixpoint fetches (k : nat) (m : machine) : list (list Byte.byte) :=
  match k with
  | O => []
  | S k' => fst (run_get m) :: fetches k' (turn m)
  end.

(** The next [k] fetches all lack the annotation. *)
Fixpoint spins (k : nat) (m : machine) : bool :=
  match k with
  | O => true
  | S k' => lacks_annotation (fst (run_get m)) && spins k' (turn m)
  end.

End Script.

Arguments Machine {h} world trace.
Arguments world {h} m.
Arguments trace {h} m.
Arguments run_get {h} m.
Arguments run_apply {h} input m.
Arguments ensure_annotated {h} fuel m.
Arguments commit {h} clusterversion modified m.
Arguments turn {h} m.
Arguments turns {h} k m.
Arguments fetches {h} k m.
Arguments spins {h} k m.

(** ** Views of a document used to state the properties *)

(** An override entry is a dictionary. *)
Definition is_entry (e : json) : bool :=
  match e with
  | JObj _ => true
  | _ => false
  end.

(** The entry carries the [name] and [namespace] of the inputs. *)
Definition matches (namespace name : string) (e : json) : bool :=
  match e with
  | JObj o => is_target namespace name o
  | _ => false
  end.

(** [override.get('unmanaged')]. *)
Definition unmanaged_of (e : json) : json :=
  match e with
  | JObj o => default JNull (Py.lookup "unmanaged" o)
  | _ => JNull
  end.

(** What line 30 makes of an entry. *)
Definition set_unmanaged (e : json) : json :=
  match e with
  | JObj o => JObj (Py.setitem "unmanaged" (JBool true) o)
  | _ => e
  end.

Definition is_true_value (v : json) : bool :=
  match v with
  | JBool true => true
  | _ => false
  end.

(** The list the loop of line 27 runs over, when [spec] (if present) is a
    dictionary and [spec.overrides] (if present) is a list. *)
Definition overrides_of (d : json) : option (list json) :=
  match d with
  | JObj cv =>
      match default (JObj []) (Py.lookup "spec" cv) with
      | JObj sp =>
          match default (JArr []) (Py.lookup "overrides" sp) with
          | JArr items => Some items
          | _ => None
          end
      | _ => None
      end
  | _ => None
  end.

(** The document with [items] as its [spec.overrides] and nothing else
    touched. *)
Definition put_overrides (d : json) (items : list json) : json :=
  match d with
  | JObj cv =>
      match default (JObj []) (Py.lookup "spec" cv) with
      | JObj sp =>
          JObj (Py.setitem "spec"
                  (JObj (Py.setitem "overrides" (JArr items) sp)) cv)
      | _ => d
      end
  | _ => d
  end.

(** Number of items satisfying a test. *)
Definition count (p : json -> bool) (l : list json) : nat :=
  length (List.filter p l).

(** What the loop body makes of the entry it stops at. *)
Definition visit (e : json) : json :=
  if Py.truthy (unmanaged_of e) then e else set_unmanaged e.

(** An entry the loop walks past: a dictionary that is not the target. *)
Definition passed (namespace name : string) (e : json) : bool :=
  is_entry e && negb (matches namespace name e).

(** The outcome of the merge, given what the loop found. *)
Definition merged (namespace name : string) (d : json) (items : list json)
    (found : option (list json * bool)) : json * bool :=
  match found with
  | Some (items', modified) => (put_overrides d items', modified)
  | None => (put_overrides d (items ++ [new_override namespace name]), true)
  end.

(** ** Vocabulary of the properties *)

(** The entry is for the inputs and its [unmanaged] field is [true]. *)
Definition unmanaged_target (namespace name : string) (e : json) : bool :=
  matches namespace name e && is_true_value (unmanaged_of e).

(** The [unmanaged] field is absent, [null] or a boolean. *)
Definition boolean_flag (e : json) : bool :=
  match unmanaged_of e with
  | JNull | JBool _ => true
  | _ => false
  end.

(** [b] binds every key but [k0] as [a] does, with the keys in the order of
    [a] and [k0] added last when [a] does not bind it. *)
Definition same_except (k0 : string) (a b : dict) : Prop :=
  (forall k, k <> k0 -> Py.lookup k b = Py.lookup k a)
  /\ map fst b = match Py.lookup k0 a with
                 | Some _ => map fst a
                 | None => map fst a ++ [k0]
                 end.

(** The trace of [k] turns of the loop: each fetch is followed by an apply
    of the very bytes fetched. *)
Definition turns_trace (outputs : list (list Byte.byte)) : list event :=
  flat_map (fun b => [OcGet; OcApply (InBytes b)]) outputs.

(** The documents written by the apply of line 45. *)
Fixpoint final_applies (tr : list event) : list string :=
  match tr with
  | [] => []
  | OcApply (InText s) :: tr' => s :: final_applies tr'
  | _ :: tr' => final_applies tr'
  end.

(** ** Sample documents and a stub cluster *)

Definition entry (namespace name : string) (unmanaged : json) : json :=
  JObj [("group", JStr "apps/v1");
        ("kind", JStr "Deployment");
        ("name", JStr name);
        ("namespace", JStr namespace);
        ("unmanaged", unmanaged)].

(** A fetched document that carries the annotation. *)
Definition annotated (overrides : list json) : json :=
  JObj [("apiVersion", JStr "config.openshift.io/v1");
        ("kind", JStr "ClusterVersion");
        ("metadata",
         JObj [("annotations", JObj [(annotation_key, JStr "{}")]);
               ("name", JStr "version")]);
        ("spec", JObj [("channel", JStr "stable"); ("overrides", JArr overrides)])].

(** A fetched document that does not. *)
Definition unannotated : json :=
  JObj [("apiVersion", JStr "config.openshift.io/v1");
        ("kind", JStr "ClusterVersion");
        ("metadata", JObj [("name", JStr "version")]);
        ("spec", JObj [("channel", JStr "stable")])].

(** A document with one key. *)
Definition unannotated_bare : json := JObj [("kind", JStr "ClusterVersion")].

Definition ns0 : string := "openshift-monitoring".
Definition name0 : string := "prometheus-operator".
Definition other : json := entry "openshift-dns" "dns-operator" (JBool true).

(** A stub cluster: [oc get] answers with the next of a list of outputs,
    [oc apply] leaves the list alone.  The stub parser knows four outputs. *)
Definition stub_get (w : list (list Byte.byte))
  : list Byte.byte * list (list Byte.byte) :=
  match w with
  | [] => ([], [])
  | out :: w' => (out, w')
  end.

Definition stub_apply (_ : stdin) (w : list (list Byte.byte))
  : list (list Byte.byte) := w.

Definition stub_loads (b : list Byte.byte) : option json :=
  match b with
  | [Byte.x30] => Some unannotated
  | [Byte.x31] => Some (annotated [])
  | [Byte.x32] => Some (annotated [entry ns0 name0 (JBool true)])
  | [Byte.x33] =>
      Some (annotated [entry ns0 name0 (JBool false);
                       entry ns0 name0 (JBool true)])
  | _ => None
  end.

Definition stub_dumps (d : json) : string :=
  match overrides_of d with
  | Some [] => "0 overrides"
  | Some [_] => "1 override"
  | _ => "more"
  end.

Definition stub : host := Host _ stub_get stub_apply stub_loads stub_dumps.

(** ** Lines 7-8: the arguments of the script *)

(** How the script ends: [sys.argv[1]] or [sys.argv[2]] raised [IndexError],
    or line 11 was reached and the run ended as [o]. *)
Inductive script_outcome : Type :=
| ArgvIndexError
| Ran (o : outcome).

(** The script started with [sys.argv = argv]; [argv !! 0] is the path of
    the script. *)
Definition script (h : host) (fuel : nat) (argv : list string) (w : World h)
  : script_outcome * machine h :=
  match argv !! 1 with
  | None => (ArgvIndexError, Machine w [])
  | Some namespace =>
      match argv !! 2 with
      | None => (ArgvIndexError, Machine w [])
      | Some name =>
          let (o, m) := main h fuel namespace name w in
          (Ran o, m)
      end
  end.

Definition script_exit_status (o : script_outcome) : option Z :=
  match o with
  | ArgvIndexError => Some 1%Z
  | Ran o => exit_status o
  end.

(** The loop of lines 27-32 gets through [items]: every item it looks at,
    up to and including the first one for the inputs, is a dictionary. *)
Fixpoint scannable (namespace name : string) (items : list json) : bool :=
  match items with
  | [] => true
  | e :: rest =>
      is_entry e && (matches namespace name e || scannable namespace name rest)
  end.

(** The values [in] accepts on its right: dictionaries, lists and strings. *)
Definition is_container (v : json) : bool :=
  match v with
  | JObj _ | JArr _ | JStr _ => true
  | _ => false
  end.

(** The tail of the trace of a run that left the loop. *)
Definition final_trace (h : host) (clusterversion : json) (modified : bool)
  : list event :=
  OcGet :: (if modified
            then [OcApply (InText (json_dumps h clusterversion))]
            else []).

(** A cluster on which an apply injects the annotation: the state says
    whether something was applied. *)
Definition injecting : host :=
  Host bool
       (fun applied => (if applied then [Byte.x31] else [Byte.x30], applied))
       (fun _ _ => true)
       stub_loads stub_dumps.

(** The stub cluster with a parser that knows two ill-shaped outputs too. *)
Definition odd_loads (b : list Byte.byte) : option json :=
  match b with
  | [Byte.x34] => Some (JObj [("metadata", JNull)])
  | [Byte.x35] => Some (annotated [JInt 1; entry ns0 name0 (JBool false)])
  | _ => stub_loads b
  end.

Definition odd : host := Host _ stub_get stub_apply odd_loads stub_dumps.

(** * Properties *)

(** ** Facts about dictionaries *)

Module PyFacts.
Import Py.

Lemma lookup_setitem_eq k v d : lookup k (setitem k v d) = Some v.
Proof.
  induction d as [|[k' v'] d IH]; simpl.
  - now rewrite String.eqb_refl.
  - destruct (String.eqb k' k) eqn:E; simpl; now rewrite E.
Qed.

Lemma lookup_setitem_ne k k' v d :
  k <> k' -> lookup k' (setitem k v d) = lookup k' d.
Proof.
  intros Hne. induction d as [|[k0 v0] d IH]; simpl.
  - destruct (String.eqb_spec k k'); congruence.
  - destruct (String.eqb_spec k0 k) as [->|]; simpl.
    + destruct (String.eqb_spec k k'); congruence.
    + now rewrite IH.
Qed.

Lemma setitem_id k v d : lookup k d = Some v -> setitem k v d = d.
Proof.
  induction d as [|[k' v'] d IH]; simpl; [discriminate|].
  destruct (String.eqb k' k); intros H.
  - congruence.
  - now rewrite IH.
Qed.

Lemma setitem_fresh k v d : lookup k d = None -> setitem k v d = d ++ [(k, v)].
Proof.
  induction d as [|[k' v'] d IH]; simpl; [reflexivity|].
  destruct (String.eqb k' k); [discriminate|].
  intros H. now rewrite IH.
Qed.

Lemma setitem_setitem k v v' d :
  setitem k v (setitem k v' d) = setitem k v d.
Proof.
  induction d as [|[k0 v0] d IH]; simpl.
  - now rewrite String.eqb_refl.
  - destruct (String.eqb k0 k) eqn:E; simpl; rewrite E; congruence.
Qed.

Lemma setitem_after_default k v v0 d :
  lookup k d = None -> setitem k v (d ++ [(k, v0)]) = setitem k v d.
Proof.
  intros H. rewrite <- (setitem_fresh k v0 d H). apply setitem_setitem.
Qed.

(** Keys keep their order; a new key is added at the end. *)
Lemma keys_setitem k v d :
  map fst (setitem k v d)
  = match lookup k d with
    | Some _ => map fst d
    | None => map fst d ++ [k]
    end.
Proof.
  induction d as [|[k' v'] d IH]; simpl; [reflexivity|].
  destruct (String.eqb k' k); simpl; [reflexivity|].
  rewrite IH. now destruct (lookup k d).
Qed.

Lemma truthy_true_value v : is_true_value v = true -> truthy v = true.
Proof. destruct v as [|[]| | | | |]; simpl; congruence. Qed.

End PyFacts.

(** ** The loop of lines 27-32 *)

Section Loop.
Variables namespace name : string.

Lemma merge_loop_entry o rest :
  merge_loop namespace name (JObj o :: rest)
  = if is_target namespace name o
    then Ok (Some (visit (JObj o) :: rest,
                   negb (Py.truthy (unmanaged_of (JObj o)))))
    else do found <- merge_loop namespace name rest;
         match found with
         | Some (rest', modified) => Ok (Some (JObj o :: rest', modified))
         | None => Ok None
         end.
Proof.
  unfold is_target, visit. cbn [merge_loop Py.get bind].
  destruct (Py.eq_str (default JNull (Py.lookup "name" o)) name);
    cbn [bind andb]; [|reflexivity].
  destruct (Py.eq_str (default JNull (Py.lookup "namespace" o)) namespace);
    cbn [bind]; [|reflexivity].
  cbn [unmanaged_of].
  now destruct (Py.truthy (default JNull (Py.lookup "unmanaged" o))).
Qed.

Lemma merge_loop_not_entry e rest :
  is_entry e = false ->
  merge_loop namespace name (e :: rest) = Raise AttributeError.
Proof. destruct e; simpl; congruence. Qed.

Lemma passed_inv e :
  passed namespace name e = true ->
  exists o, e = JObj o /\ is_target namespace name o = false.
Proof.
  unfold passed. destruct e; simpl; try discriminate.
  intros H. eexists; split; [reflexivity|].
  now destruct (is_target namespace name fields).
Qed.

(** The loop runs to its end over entries that are all walked past. *)
Lemma merge_loop_exhausted items :
  Forall (fun e => passed namespace name e = true) items ->
  merge_loop namespace name items = Ok None.
Proof.
  induction 1 as [|e items He _ IH]; [reflexivity|].
  apply passed_inv in He as (o & -> & Ho).
  now rewrite merge_loop_entry, Ho, IH.
Qed.

(** The loop stops at the first target. *)
Lemma merge_loop_break pre e post :
  Forall (fun e => passed namespace name e = true) pre ->
  matches namespace name e = true ->
  merge_loop namespace name (pre ++ e :: post)
  = Ok (Some (pre ++ visit e :: post, negb (Py.truthy (unmanaged_of e)))).
Proof.
  intros Hpre He. induction Hpre as [|p pre Hp _ IH]; simpl app.
  - destruct e as [| | | | | |o]; try discriminate.
    rewrite merge_loop_entry. simpl in He. now rewrite He.
  - apply passed_inv in Hp as (o & -> & Ho).
    now rewrite merge_loop_entry, Ho, IH.
Qed.

(** Every result of the loop arises in one of these two ways. *)
Lemma merge_loop_inv items found :
  merge_loop namespace name items = Ok found ->
  match found with
  | None => Forall (fun e => passed namespace name e = true) items
  | Some (items', modified) =>
      exists pre e post,
        items = pre ++ e :: post
        /\ Forall (fun e => passed namespace name e = true) pre
        /\ matches namespace name e = true
        /\ items' = pre ++ visit e :: post
        /\ modified = negb (Py.truthy (unmanaged_of e))
  end.
Proof.
  revert found. induction items as [|e items IH]; intros found H.
  - injection H as <-. constructor.
  - destruct (is_entry e) eqn:Ee;
      [|rewrite merge_loop_not_entry in H by assumption; discriminate].
    destruct e as [| | | | | |o]; try discriminate.
    rewrite merge_loop_entry in H.
    destruct (is_target namespace name o) eqn:Ho.
    + injection H as <-. exists [], (JObj o), items. simpl. now rewrite Ho.
    + destruct (merge_loop namespace name items) as [r|] eqn:Er;
        [|discriminate].
      specialize (IH r eq_refl). cbn [bind] in H.
      assert (Hp : passed namespace name (JObj o) = true)
        by (unfold passed; simpl; now rewrite Ho).
      destruct r as [[items' modified]|]; injection H as <-.
      * destruct IH as (pre & e & post & -> & Hpre & He & -> & ->).
        exists (JObj o :: pre), e, post. repeat split; auto.
      * now constructor.
Qed.

End Loop.

(** ** The merge as a function of the overrides list *)

Section Merge.
Variables namespace name : string.

(** On a document whose overrides are a list, the merge is the loop
    followed by writing the list back. *)
Lemma merge_override_eq d items :
  overrides_of d = Some items ->
  merge_override namespace name d
  = do found <- merge_loop namespace name items;
    Ok (merged namespace name d items found).
Proof.
  destruct d as [| | | | | |cv]; try discriminate.
  unfold overrides_of, merge_override, merged, put_overrides, Py.setdefault.
  destruct (Py.lookup "spec" cv) as [spec|] eqn:Hspec; cbn [default from_option id bind].
  - destruct spec as [| | | | | |sp]; try discriminate.
    destruct (Py.lookup "overrides" sp) as [ov|] eqn:Hov; cbn [default from_option id bind].
    + destruct ov as [| | | | |l|]; try discriminate.
      intros [= ->]. cbn [Py.iter bind].
      destruct (merge_loop namespace name items) as [[[items' m]|]|];
        reflexivity.
    + intros [= <-]. cbn [Py.iter bind merge_loop Py.append Py.store].
      now rewrite PyFacts.setitem_after_default.
  - intros [= <-]. cbn [Py.lookup default from_option id bind Py.iter merge_loop
                        Py.append Py.store Py.setitem app].
    rewrite String.eqb_refl. now rewrite PyFacts.setitem_after_default.
Qed.

(** Iterating over anything but a list never completes the merge: numbers,
    booleans and [None] are not iterable, the keys of a dictionary and the
    characters of a string have no [get], and neither a dictionary nor a
    string has [append]. *)
Lemma merge_tail_not_list ov spec1 cv1 :
  (forall l, ov <> JArr l) ->
  exists e,
    (do items <- Py.iter ov;
     do found <- merge_loop namespace name items;
     do (overrides', modified) <-
        match found with
        | Some (items', modified) => Ok (store_items ov items', modified)
        | None =>
            do appended <- Py.append ov (new_override namespace name);
            Ok (appended, true)
        end;
     do spec' <- Py.store spec1 "overrides" overrides';
     do clusterversion' <- Py.store cv1 "spec" spec';
     Ok (clusterversion', modified))
    = Raise e.
Proof.
  intros Hov. destruct ov as [| | | |s|l|o]; cbn [Py.iter bind];
    try (eexists; reflexivity).
  - destruct (String.list_ascii_of_string s); eexists; reflexivity.
  - now destruct (Hov l).
  - destruct o; eexists; reflexivity.
Qed.

(** A merge that returns ran over a list of overrides. *)
Lemma merge_override_ok_inv d r :
  merge_override namespace name d = Ok r ->
  exists items, overrides_of d = Some items.
Proof.
  destruct d as [| | | | | |cv]; try discriminate.
  unfold merge_override, overrides_of, Py.setdefault.
  destruct (Py.lookup "spec" cv) as [s|] eqn:Hs;
    cbn [default from_option id bind];
    [|intros _; eexists; reflexivity].
  destruct s as [| | | | | |sp]; try discriminate.
  destruct (Py.lookup "overrides" sp) as [ov|] eqn:Ho;
    cbn [default from_option id bind];
    [|intros _; eexists; reflexivity].
  destruct ov as [| | | |s|l|o]; eauto; intros H; exfalso; revert H;
    match goal with
    | |- bind (Py.iter ?ov) _ = _ -> _ =>
        destruct (merge_tail_not_list ov (JObj sp) (JObj cv)) as [e ->];
          [intros l; discriminate | discriminate]
    end.
Qed.

(** Writing the list back. *)
Lemma overrides_of_put d items items' :
  overrides_of d = Some items ->
  overrides_of (put_overrides d items') = Some items'.
Proof.
  destruct d as [| | | | | |cv]; try discriminate.
  unfold overrides_of, put_overrides.
  destruct (default (JObj []) (Py.lookup "spec" cv)) as [| | | | | |sp];
    try discriminate.
  intros _. rewrite PyFacts.lookup_setitem_eq. cbn [default from_option id].
  now rewrite PyFacts.lookup_setitem_eq.
Qed.

Lemma put_put d items a b :
  overrides_of d = Some items ->
  put_overrides (put_overrides d a) b = put_overrides d b.
Proof.
  destruct d as [| | | | | |cv]; try discriminate.
  unfold overrides_of, put_overrides.
  destruct (default (JObj []) (Py.lookup "spec" cv)) as [| | | | | |sp];
    try discriminate.
  intros _. rewrite PyFacts.lookup_setitem_eq. cbn [default from_option id].
  now rewrite !PyFacts.setitem_setitem.
Qed.

(** Writing back the list that is stored changes nothing, as soon as the
    list is stored and not a default. *)
Lemma put_stored d items :
  overrides_of d = Some items -> items <> [] -> put_overrides d items = d.
Proof.
  destruct d as [| | | | | |cv]; try discriminate.
  unfold overrides_of, put_overrides.
  destruct (Py.lookup "spec" cv) as [s|] eqn:Hs; cbn [default from_option id].
  - destruct s as [| | | | | |sp]; try discriminate.
    destruct (Py.lookup "overrides" sp) as [ov|] eqn:Ho; cbn [default from_option id].
    + destruct ov; try discriminate. intros [= ->] _.
      now rewrite (PyFacts.setitem_id _ _ _ Ho), (PyFacts.setitem_id _ _ _ Hs).
    + intros [= <-]. congruence.
  - cbn [Py.lookup default from_option id]. intros [= <-]. congruence.
Qed.

End Merge.

(** ** Entries, before and after the loop body *)

Section Entries.
Variables namespace name : string.

Lemma matches_entry e : matches namespace name e = true -> is_entry e = true.
Proof. now destruct e. Qed.

Lemma matches_new_override :
  matches namespace name (new_override namespace name) = true.
Proof.
  unfold matches, new_override, is_target. cbn.
  now rewrite !String.eqb_refl.
Qed.

Lemma unmanaged_new_override :
  unmanaged_of (new_override namespace name) = JBool true.
Proof. reflexivity. Qed.

(** Line 30 writes the flag and leaves every other field alone. *)
Lemma matches_set_unmanaged e :
  matches namespace name (set_unmanaged e) = matches namespace name e.
Proof.
  destruct e as [| | | | | |o]; try reflexivity.
  unfold matches, set_unmanaged, is_target.
  now rewrite !PyFacts.lookup_setitem_ne by discriminate.
Qed.

Lemma unmanaged_set_unmanaged e :
  is_entry e = true -> unmanaged_of (set_unmanaged e) = JBool true.
Proof.
  destruct e as [| | | | | |o]; try discriminate. intros _.
  unfold unmanaged_of, set_unmanaged.
  now rewrite PyFacts.lookup_setitem_eq.
Qed.

Lemma matches_visit e :
  matches namespace name (visit e) = matches namespace name e.
Proof.
  unfold visit. destruct (Py.truthy (unmanaged_of e)); [reflexivity|].
  apply matches_set_unmanaged.
Qed.

Lemma truthy_visit e :
  is_entry e = true -> Py.truthy (unmanaged_of (visit e)) = true.
Proof.
  intros He. unfold visit.
  destruct (Py.truthy (unmanaged_of e)) eqn:Hu; [exact Hu|].
  now rewrite unmanaged_set_unmanaged.
Qed.

Lemma visit_truthy e : Py.truthy (unmanaged_of e) = true -> visit e = e.
Proof. unfold visit. now intros ->. Qed.

Lemma visit_falsy e :
  Py.truthy (unmanaged_of e) = false -> visit e = set_unmanaged e.
Proof. unfold visit. now intros ->. Qed.

Lemma passed_not_matches e :
  passed namespace name e = true -> matches namespace name e = false.
Proof.
  unfold passed. destruct (matches namespace name e); [|reflexivity].
  now rewrite andb_false_r.
Qed.

Lemma passed_iff e :
  passed namespace name e = true
  <-> is_entry e = true /\ matches namespace name e = false.
Proof.
  unfold passed. destruct (is_entry e), (matches namespace name e);
    simpl; intuition congruence.
Qed.

Lemma Forall_passed items :
  Forall (fun e => is_entry e = true) items ->
  Forall (fun e => matches namespace name e = false) items ->
  Forall (fun e => passed namespace name e = true) items.
Proof.
  intros He Hm. induction He as [|e items He _ IH]; [constructor|].
  inversion Hm; subst. constructor; [|auto].
  now apply passed_iff.
Qed.

End Entries.

(** ** Counting entries *)

Section Count.
Variable p : json -> bool.

Lemma count_app l l' : count p (l ++ l') = count p l + count p l'.
Proof. unfold count. now rewrite List.filter_app, length_app. Qed.

Lemma count_cons x l : count p (x :: l) = (if p x then 1 else 0) + count p l.
Proof. unfold count. simpl. now destruct (p x). Qed.

Lemma count_none l : Forall (fun x => p x = false) l -> count p l = 0.
Proof.
  induction 1 as [|x l Hx _ IH]; [reflexivity|].
  now rewrite count_cons, Hx, IH.
Qed.

Lemma count_zero l : count p l = 0 -> Forall (fun x => p x = false) l.
Proof.
  induction l as [|x l IH]; [constructor|].
  rewrite count_cons. destruct (p x) eqn:Hx; [discriminate|].
  intros H. constructor; auto.
Qed.

Lemma count_weaken (q : json -> bool) l :
  (forall x, q x = true -> p x = true) ->
  count p l = 0 -> count q l = 0.
Proof.
  intros Hq Hp. apply count_zero in Hp.
  unfold count. induction Hp as [|x l Hx _ IH]; [reflexivity|].
  simpl. destruct (q x) eqn:Q; [|exact IH].
  apply Hq in Q. congruence.
Qed.

End Count.

(** ** The three outcomes of the merge *)

Section Outcomes.
Variables namespace name : string.

(** C1.  On a document whose overrides are a list of entries none of which
    has both the name and the namespace of the inputs (an absent list counts
    as empty), the merge returns, appends exactly the entry
    [{group: "apps/v1", kind: "Deployment", name, namespace, unmanaged: true}]
    at the end, the list is one longer, and [modified] is set. *)
Theorem merge_override_appends d items :
  overrides_of d = Some items ->
  Forall (fun e => is_entry e = true) items ->
  Forall (fun e => matches namespace name e = false) items ->
  let items' := items ++ [new_override namespace name] in
  merge_override namespace name d = Ok (put_overrides d items', true)
  /\ overrides_of (put_overrides d items') = Some items'
  /\ length items' = S (length items).
Proof.
  intros Hd He Hm items'. split; [|split].
  - rewrite (merge_override_eq _ _ _ _ Hd).
    now rewrite merge_loop_exhausted by now apply Forall_passed.
  - now apply overrides_of_put with items.
  - subst items'. rewrite length_app. simpl. lia.
Qed.

(** C2 (amended).  When the first entry with the name and namespace of the
    inputs has a falsy or absent [unmanaged] field, the merge returns, sets
    that field of that entry to [true], sets [modified], appends nothing and
    leaves the length of the list as it was. *)
Theorem merge_override_flips d pre e post :
  overrides_of d = Some (pre ++ e :: post) ->
  Forall (fun x => passed namespace name x = true) pre ->
  matches namespace name e = true ->
  Py.truthy (unmanaged_of e) = false ->
  let items' := pre ++ set_unmanaged e :: post in
  merge_override namespace name d = Ok (put_overrides d items', true)
  /\ overrides_of (put_overrides d items') = Some items'
  /\ unmanaged_of (set_unmanaged e) = JBool true
  /\ matches namespace name (set_unmanaged e) = true
  /\ length items' = length (pre ++ e :: post).
Proof.
  intros Hd Hpre He Hu items'. repeat split.
  - rewrite (merge_override_eq _ _ _ _ Hd).
    rewrite merge_loop_break by assumption.
    now rewrite Hu, (visit_falsy _ Hu).
  - now apply overrides_of_put with (pre ++ e :: post).
  - apply unmanaged_set_unmanaged. now apply matches_entry in He.
  - now rewrite matches_set_unmanaged.
  - subst items'. now rewrite !length_app.
Qed.

(** When the first entry with the name and namespace of the inputs has a
    truthy [unmanaged] field, the merge returns the document as it was, with
    [modified] unset. *)
Lemma merge_override_already d pre e post :
  overrides_of d = Some (pre ++ e :: post) ->
  Forall (fun x => passed namespace name x = true) pre ->
  matches namespace name e = true ->
  Py.truthy (unmanaged_of e) = true ->
  merge_override namespace name d = Ok (d, false).
Proof.
  intros Hd Hpre He Hu.
  rewrite (merge_override_eq _ _ _ _ Hd).
  rewrite merge_loop_break by assumption.
  rewrite Hu, (visit_truthy _ Hu). cbn [bind merged negb].
  rewrite put_stored; [reflexivity|assumption|].
  now destruct pre.
Qed.

(** Every merge that returns is one of the three above. *)
Lemma merge_override_cases d d' modified :
  merge_override namespace name d = Ok (d', modified) ->
  exists items,
    overrides_of d = Some items
    /\ ((Forall (fun x => passed namespace name x = true) items
         /\ d' = put_overrides d (items ++ [new_override namespace name])
         /\ modified = true)
        \/ exists pre e post,
             items = pre ++ e :: post
             /\ Forall (fun x => passed namespace name x = true) pre
             /\ matches namespace name e = true
             /\ d' = put_overrides d (pre ++ visit e :: post)
             /\ modified = negb (Py.truthy (unmanaged_of e))).
Proof.
  intros H. destruct (merge_override_ok_inv _ _ _ _ H) as [items Hd].
  exists items. split; [assumption|].
  rewrite (merge_override_eq _ _ _ _ Hd) in H.
  destruct (merge_loop namespace name items) as [found|] eqn:Hl;
    [|discriminate].
  apply merge_loop_inv in Hl. cbn [bind] in H.
  destruct found as [[items' m]|]; cbn [merged] in H.
  - destruct Hl as (pre & e & post & -> & Hpre & He & -> & ->).
    injection H as <- <-. right. exists pre, e, post. auto.
  - injection H as <- <-. left. auto.
Qed.

End Outcomes.

(** ** One unmanaged entry per target *)

Section Invariant.
Variables namespace name : string.

Lemma boolean_flag_truthy e :
  boolean_flag e = true ->
  is_true_value (unmanaged_of e) = Py.truthy (unmanaged_of e).
Proof. unfold boolean_flag. now destruct (unmanaged_of e) as [|[]| | | | |]. Qed.

Lemma unmanaged_target_visit e :
  matches namespace name e = true ->
  boolean_flag e = true ->
  unmanaged_target namespace name (visit e) = true.
Proof.
  intros He Hb. unfold unmanaged_target. rewrite matches_visit, He.
  unfold visit. destruct (Py.truthy (unmanaged_of e)) eqn:Hu.
  - now rewrite boolean_flag_truthy.
  - rewrite unmanaged_set_unmanaged; [reflexivity|].
    now apply matches_entry in He.
Qed.

Lemma count_passed p items :
  (forall x, p x = true -> matches namespace name x = true) ->
  Forall (fun x => passed namespace name x = true) items ->
  count p items = 0.
Proof.
  intros Hp Hitems. apply count_none.
  eapply Forall_impl; [exact Hitems|]. intros x Hx. cbv beta.
  apply passed_not_matches in Hx.
  destruct (p x) eqn:Px; [|reflexivity]. apply Hp in Px. congruence.
Qed.

(** C3 (amended).  After a merge that returns, on a document whose overrides
    hold at most one entry with the name and namespace of the inputs, that
    entry having a boolean or absent [unmanaged] field, the resulting
    overrides hold exactly one entry with that name and namespace, and its
    [unmanaged] field is [true]. *)
Theorem merge_override_one_unmanaged d d' modified items :
  merge_override namespace name d = Ok (d', modified) ->
  overrides_of d = Some items ->
  count (matches namespace name) items <= 1 ->
  Forall (fun e => matches namespace name e = true -> boolean_flag e = true)
         items ->
  exists items',
    overrides_of d' = Some items'
    /\ count (matches namespace name) items' = 1
    /\ count (unmanaged_target namespace name) items' = 1.
Proof.
  intros H Hd Hone Hbool.
  destruct (merge_override_cases _ _ _ _ _ H) as (items0 & Hd0 & Hcases).
  assert (items0 = items) as -> by congruence.
  assert (Hsub : forall x, unmanaged_target namespace name x = true ->
                           matches namespace name x = true).
  { intros x. unfold unmanaged_target.
    now destruct (matches namespace name x). }
  destruct Hcases as [(Hall & -> & _)|(pre & e & post & -> & Hpre & He & -> & _)].
  - eexists. split; [now apply overrides_of_put with items|].
    rewrite !count_app, !count_cons.
    rewrite (count_passed (matches namespace name)) by auto.
    rewrite (count_passed (unmanaged_target namespace name)) by auto.
    unfold unmanaged_target at 1.
    now rewrite matches_new_override, unmanaged_new_override.
  - eexists. split; [now apply overrides_of_put with (pre ++ e :: post)|].
    rewrite count_app, count_cons, He in Hone.
    assert (Hpost : count (matches namespace name) post = 0) by lia.
    apply Forall_app in Hbool as [_ Hbool].
    apply Forall_cons in Hbool as [Hb _]. specialize (Hb He).
    rewrite !count_app, !count_cons.
    rewrite (count_passed (matches namespace name)) by auto.
    rewrite (count_passed (unmanaged_target namespace name)) by auto.
    rewrite matches_visit, He, unmanaged_target_visit by assumption.
    rewrite Hpost.
    now rewrite (count_weaken (matches namespace name) (unmanaged_target namespace name)).
Qed.

(** C5.  A merge that returns leaves a document on which the merge returns
    again, with the very same document and [modified] unset: no second entry
    is appended and the flag stays set. *)
Theorem merge_override_idempotent d d' modified :
  merge_override namespace name d = Ok (d', modified) ->
  merge_override namespace name d' = Ok (d', false)
  /\ exists items',
       overrides_of d' = Some items'
       /\ exists pre e post,
            items' = pre ++ e :: post
            /\ Forall (fun x => matches namespace name x = false) pre
            /\ matches namespace name e = true
            /\ Py.truthy (unmanaged_of e) = true.
Proof.
  intros H.
  destruct (merge_override_cases _ _ _ _ _ H) as (items & Hd & Hcases).
  assert (Hfix : forall pre e post,
             d' = put_overrides d (pre ++ e :: post) ->
             Forall (fun x => passed namespace name x = true) pre ->
             matches namespace name e = true ->
             Py.truthy (unmanaged_of e) = true ->
             merge_override namespace name d' = Ok (d', false)).
  { intros pre e post -> Hpre He Hu.
    apply merge_override_already with pre e post; auto.
    now apply overrides_of_put with items. }
  destruct Hcases as [(Hall & -> & _)|(pre & e & post & -> & Hpre & He & -> & _)].
  - split.
    + apply (Hfix items (new_override namespace name) []); auto.
      apply matches_new_override.
    + eexists. split; [now apply overrides_of_put with items|].
      exists items, (new_override namespace name), []. repeat split.
      * eapply Forall_impl; [exact Hall|]. apply passed_not_matches.
      * apply matches_new_override.
  - assert (Hv : Py.truthy (unmanaged_of (visit e)) = true)
      by (apply truthy_visit; now apply matches_entry in He).
    split.
    + apply (Hfix pre (visit e) post); auto. now rewrite matches_visit.
    + eexists. split; [now apply overrides_of_put with (pre ++ e :: post)|].
      exists pre, (visit e), post. repeat split; auto.
      * eapply Forall_impl; [exact Hpre|]. apply passed_not_matches.
      * now rewrite matches_visit.
Qed.

End Invariant.

(** ** The loop of lines 11-21 *)

Section Run.
Variable h : host.
Implicit Types m : machine h.

Lemma trace_run_get m : trace (snd (run_get m)) = trace m ++ [OcGet].
Proof. unfold run_get. now destruct (oc_get h (world m)). Qed.

Lemma trace_turn m :
  trace (turn m) = trace m ++ [OcGet; OcApply (InBytes (fst (run_get m)))].
Proof.
  unfold turn, run_get, run_apply.
  destruct (oc_get h (world m)); simpl. now rewrite <- app_assoc.
Qed.

Lemma trace_turns k m :
  trace (turns k m) = trace m ++ turns_trace (fetches k m).
Proof.
  revert m. induction k as [|k IH]; intros m; simpl.
  - now rewrite app_nil_r.
  - rewrite IH, trace_turn. now rewrite <- app_assoc.
Qed.

(** A turn on a document without the annotation stays in the loop. *)
Lemma ensure_annotated_turn fuel m :
  lacks_annotation h (fst (run_get m)) = true ->
  ensure_annotated (S fuel) m = ensure_annotated fuel (turn m).
Proof.
  unfold lacks_annotation, turn. cbn [ensure_annotated].
  destruct (run_get m) as [stdout m1]. cbn [fst].
  destruct (json_loads h stdout) as [cv|]; [|discriminate].
  now destruct (has_annotation cv) as [[]|].
Qed.

Lemma ensure_annotated_turns k fuel m :
  spins k m = true ->
  ensure_annotated (k + fuel) m = ensure_annotated fuel (turns k m).
Proof.
  revert m. induction k as [|k IH]; intros m; [reflexivity|].
  cbn [spins]. intros [H1 H2]%andb_prop.
  change (S k + fuel) with (S (k + fuel)).
  rewrite ensure_annotated_turn by assumption. now apply IH.
Qed.

(** How the loop is left: after some turns, on the next fetch. *)
Lemma ensure_annotated_inv fuel m r m' :
  ensure_annotated fuel m = (r, m') ->
  exists k,
    k <= fuel /\ spins k m = true
    /\ match r with
       | Spinning => k = fuel /\ m' = turns k m
       | Annotated cv =>
           k < fuel /\ m' = snd (run_get (turns k m))
           /\ json_loads h (fst (run_get (turns k m))) = Some cv
           /\ has_annotation cv = Ok true
       | Failed e =>
           k < fuel /\ m' = snd (run_get (turns k m))
           /\ match json_loads h (fst (run_get (turns k m))) with
              | None => e = JSONDecodeError
              | Some cv => has_annotation cv = Raise e
              end
       end.
Proof.
  revert m. induction fuel as [|fuel IH]; intros m H.
  - injection H as <- <-. exists 0. auto.
  - destruct (lacks_annotation h (fst (run_get m))) eqn:Hl.
    + rewrite ensure_annotated_turn in H by assumption.
      destruct (IH _ H) as (k & Hk & Hs & Hr).
      exists (S k). split; [lia|]. split; [cbn; now rewrite Hl|].
      destruct r; cbn [turns]; intuition (auto with arith).
    + exists 0. split; [lia|]. split; [reflexivity|].
      revert H Hl. unfold lacks_annotation.
      cbn [ensure_annotated turns].
      destruct (run_get m) as [stdout m1]. cbn [fst snd].
      destruct (json_loads h stdout) as [cv|].
      * destruct (has_annotation cv) as [[]|e] eqn:Ha; [| discriminate |];
          intros [= <- <-] _; repeat split; auto with arith.
      * intros [= <- <-] _. repeat split; auto with arith.
Qed.

Lemma final_applies_app tr tr' :
  final_applies (tr ++ tr') = final_applies tr ++ final_applies tr'.
Proof.
  induction tr as [|[|[b|s]] tr IH]; simpl; auto. now rewrite IH.
Qed.

Lemma final_applies_turns outputs : final_applies (turns_trace outputs) = [].
Proof. induction outputs; simpl; auto. Qed.

(** The loop never runs the apply of line 45. *)
Lemma ensure_annotated_final_applies fuel m r m' :
  ensure_annotated fuel m = (r, m') ->
  final_applies (trace m') = final_applies (trace m).
Proof.
  intros H. destruct (ensure_annotated_inv _ _ _ _ H) as (k & _ & _ & Hr).
  assert (Hcases : m' = turns k m \/ m' = snd (run_get (turns k m)))
    by (destruct r; intuition).
  destruct Hcases as [-> | ->]; rewrite ?trace_run_get, trace_turns;
    rewrite !final_applies_app, final_applies_turns; simpl;
    now rewrite ?app_nil_r.
Qed.

End Run.

(** Only a dictionary passes the test of lines 16-17, so the merge is never
    handed anything else. *)
Lemma has_annotation_dict d b :
  has_annotation d = Ok b -> exists cv, d = JObj cv.
Proof. destruct d; try discriminate. eauto. Qed.

(** ** The script from start to end *)

Section Program.
Variable h : host.
Variables namespace name : string.
Implicit Types m : machine h.

(** C4 (amended).  When the first entry with the name and namespace of the
    inputs has [unmanaged] equal to [true], the merge returns the document
    and its overrides as they were with [modified] unset, [commit] starts no
    subprocess, and a run that fetched this document ends without any apply
    of a serialized document. *)
Theorem already_unmanaged_no_apply d pre e post :
  overrides_of d = Some (pre ++ e :: post) ->
  Forall (fun x => passed namespace name x = true) pre ->
  matches namespace name e = true ->
  unmanaged_of e = JBool true ->
  merge_override namespace name d = Ok (d, false)
  /\ (forall m, commit d false m = m)
  /\ (forall fuel w m,
         ensure_annotated fuel (Machine w []) = (Annotated d, m) ->
         main h fuel namespace name w = (Exited, m)
         /\ final_applies (trace m) = []).
Proof.
  intros Hd Hpre He Hu.
  assert (Hmerge : merge_override namespace name d = Ok (d, false)).
  { apply merge_override_already with pre e post; auto. now rewrite Hu. }
  split; [exact Hmerge|]. split; [reflexivity|].
  intros fuel w m Hloop. split.
  - unfold main. now rewrite Hloop, Hmerge.
  - now rewrite (ensure_annotated_final_applies _ _ _ _ _ Hloop).
Qed.

(** C6.  As long as the fetched documents lack the annotation the script
    stays in its loop: every fetch is followed by an apply of exactly the
    bytes fetched and by another fetch, and the run has not reached the
    merge.  The loop hands a document to the merge only when that document,
    parsed from the latest fetch, carries the annotation, all earlier fetches
    having been answered in that way; and a run that got through the merge
    merged such a document. *)
Theorem merge_only_when_annotated :
  (forall k w,
      spins k (Machine w []) = true ->
      trace (turns k (Machine w [])) = turns_trace (fetches k (Machine w []))
      /\ main h k namespace name w = (Hung, turns k (Machine w []))
      /\ (forall fuel,
             ensure_annotated (k + fuel) (Machine w [])
             = ensure_annotated fuel (turns k (Machine w [])))
      /\ (forall fuel clusterversion,
             json_loads h (fst (run_get (turns k (Machine w []))))
             = Some clusterversion ->
             has_annotation clusterversion = Ok true ->
             ensure_annotated (k + S fuel) (Machine w [])
             = (Annotated clusterversion,
                snd (run_get (turns k (Machine w []))))))
  /\ (forall fuel w clusterversion m,
         ensure_annotated fuel (Machine w []) = (Annotated clusterversion, m) ->
         has_annotation clusterversion = Ok true
         /\ exists k,
              k < fuel
              /\ spins k (Machine w []) = true
              /\ json_loads h (fst (run_get (turns k (Machine w []))))
                 = Some clusterversion
              /\ trace m = turns_trace (fetches k (Machine w [])) ++ [OcGet])
  /\ (forall fuel w m,
         main h fuel namespace name w = (Exited, m) ->
         exists clusterversion clusterversion' modified m1,
           ensure_annotated fuel (Machine w []) = (Annotated clusterversion, m1)
           /\ has_annotation clusterversion = Ok true
           /\ merge_override namespace name clusterversion
              = Ok (clusterversion', modified)
           /\ m = commit clusterversion' modified m1).
Proof.
  split; [|split].
  - intros k w Hs. split; [apply (trace_turns h k (Machine w []))|].
    split; [|split; [intros fuel; now apply ensure_annotated_turns|]].
    + unfold main. rewrite <- (Nat.add_0_r k) at 1.
      now rewrite ensure_annotated_turns.
    + intros fuel cv Hl Ha. rewrite ensure_annotated_turns by assumption.
      cbn [ensure_annotated].
      destruct (run_get (turns k (Machine w []))) as [stdout m1].
      cbn [fst snd] in *. now rewrite Hl, Ha.
  - intros fuel w cv m H.
    destruct (ensure_annotated_inv _ _ _ _ _ H)
      as (k & _ & Hs & Hk & -> & Hl & Ha).
    split; [assumption|]. exists k. repeat split; auto.
    now rewrite trace_run_get, trace_turns.
  - intros fuel w m. unfold main.
    destruct (ensure_annotated fuel (Machine w [])) as [[cv|e|] m1] eqn:Hloop;
      [|discriminate..].
    destruct (merge_override namespace name cv) as [[cv' modified]|e] eqn:Hm;
      [|discriminate].
    intros [= <-]. exists cv, cv', modified, m1.
    destruct (ensure_annotated_inv _ _ _ _ _ Hloop)
      as (k & _ & _ & _ & _ & _ & Ha).
    auto.
Qed.

(** C8.  When the output of a fetch does not parse, at the first fetch or
    after any number of turns of the loop, the run ends there with the parse
    error uncaught and a non-zero exit status: the trace ends with that
    fetch, so that nothing is applied or fetched afterwards, and the merge
    is not run. *)
Theorem parse_error_is_fatal k fuel w :
  spins k (Machine w []) = true ->
  json_loads h (fst (run_get (turns k (Machine w [])))) = None ->
  main h (k + S fuel) namespace name w
  = (Crashed JSONDecodeError, snd (run_get (turns k (Machine w []))))
  /\ trace (snd (run_get (turns k (Machine w []))))
     = turns_trace (fetches k (Machine w [])) ++ [OcGet]
  /\ exit_status (Crashed JSONDecodeError) = Some 1%Z.
Proof.
  intros Hs Hl. split; [|split; [|reflexivity]].
  - unfold main. rewrite ensure_annotated_turns by assumption.
    cbn [ensure_annotated].
    destruct (run_get (turns k (Machine w []))) as [stdout m1].
    cbn [fst] in Hl. now rewrite Hl.
  - now rewrite trace_run_get, trace_turns.
Qed.

End Program.

(** ** What the merge leaves alone *)

Section Frame.
Variables namespace name : string.

Lemma same_except_setitem k0 v a : same_except k0 a (Py.setitem k0 v a).
Proof.
  split.
  - intros k Hk. now apply PyFacts.lookup_setitem_ne.
  - apply PyFacts.keys_setitem.
Qed.

(** Writing a list of overrides back touches [spec.overrides] only. *)
Lemma put_overrides_frame d items items' :
  overrides_of d = Some items ->
  exists cv cv' sp sp',
    d = JObj cv /\ put_overrides d items' = JObj cv'
    /\ default (JObj []) (Py.lookup "spec" cv) = JObj sp
    /\ Py.lookup "spec" cv' = Some (JObj sp')
    /\ default (JArr []) (Py.lookup "overrides" sp) = JArr items
    /\ Py.lookup "overrides" sp' = Some (JArr items')
    /\ same_except "spec" cv cv'
    /\ same_except "overrides" sp sp'.
Proof.
  destruct d as [| | | | | |cv]; try discriminate.
  unfold overrides_of, put_overrides.
  destruct (default (JObj []) (Py.lookup "spec" cv)) as [| | | | | |sp] eqn:Hs;
    try discriminate.
  destruct (default (JArr []) (Py.lookup "overrides" sp)) as [| | | | |l|] eqn:Ho;
    try discriminate.
  intros [= ->].
  exists cv, (Py.setitem "spec" (JObj (Py.setitem "overrides" (JArr items') sp)) cv),
    sp, (Py.setitem "overrides" (JArr items') sp).
  repeat split; auto using PyFacts.lookup_setitem_eq, PyFacts.keys_setitem.
  - intros k Hk. now apply PyFacts.lookup_setitem_ne.
  - intros k Hk. now apply PyFacts.lookup_setitem_ne.
Qed.

(** C7.  The merge does not fail on a missing [spec] or a missing
    [spec.overrides]: [setdefault] stores an empty dictionary, respectively
    an empty list, in the document, and the merge goes on from there, here
    by appending the new entry to the list just created. *)
Theorem merge_override_creates_missing cv :
  (Py.lookup "spec" cv = None ->
   Py.setdefault (JObj cv) "spec" (JObj [])
   = Ok (JObj [], JObj (cv ++ [("spec", JObj [])]))
   /\ merge_override namespace name (JObj cv)
      = Ok (JObj (cv ++ [("spec",
                          JObj [("overrides",
                                 JArr [new_override namespace name])])]),
            true))
  /\ (forall sp,
         Py.lookup "spec" cv = Some (JObj sp) ->
         Py.lookup "overrides" sp = None ->
         Py.setdefault (JObj sp) "overrides" (JArr [])
         = Ok (JArr [], JObj (sp ++ [("overrides", JArr [])]))
         /\ merge_override namespace name (JObj cv)
            = Ok (JObj (Py.setitem "spec"
                          (JObj (sp ++ [("overrides",
                                         JArr [new_override namespace name])]))
                          cv),
                  true)).
Proof.
  split.
  - intros Hs. split; [unfold Py.setdefault; now rewrite Hs|].
    rewrite (merge_override_eq _ _ _ []).
    + cbn [merge_loop bind merged app]. unfold put_overrides.
      rewrite Hs. cbn [default from_option id Py.setitem].
      now rewrite PyFacts.setitem_fresh.
    + unfold overrides_of. now rewrite Hs.
  - intros sp Hs Ho. split; [unfold Py.setdefault; now rewrite Ho|].
    rewrite (merge_override_eq _ _ _ []).
    + cbn [merge_loop bind merged app]. unfold put_overrides.
      rewrite Hs. cbn [default from_option id].
      now rewrite (PyFacts.setitem_fresh "overrides").
    + unfold overrides_of. rewrite Hs. cbn [default from_option id].
      now rewrite Ho.
Qed.

(** C9.  When the first entry with the name and namespace of the inputs is
    at index [i], the merge returns with only index [i] possibly changed:
    the entry there is visited, every other entry, before or after,
    matching or not, dictionary or not, is as it was, and the list keeps its
    length. *)
Theorem merge_override_first_match_only d (items : list json) i e :
  overrides_of d = Some items ->
  items !! i = Some e ->
  matches namespace name e = true ->
  Forall (fun x => passed namespace name x = true) (take i items) ->
  merge_override namespace name d
  = Ok (put_overrides d (<[i := visit e]> items),
        negb (Py.truthy (unmanaged_of e)))
  /\ overrides_of (put_overrides d (<[i := visit e]> items))
     = Some (<[i := visit e]> items)
  /\ length (<[i := visit e]> items) = length items
  /\ (forall j, j <> i -> <[i := visit e]> items !! j = items !! j)
  /\ drop (S i) (<[i := visit e]> items) = drop (S i) items.
Proof.
  intros Hd Hi He Hpre.
  assert (Hlt : i < length items) by (eapply lookup_lt_Some; eauto).
  split; [|split; [|split; [|split]]].
  - rewrite (merge_override_eq _ _ _ _ Hd).
    rewrite insert_take_drop by assumption.
    rewrite <- (take_drop_middle items i e Hi) at 1.
    now rewrite merge_loop_break.
  - now apply overrides_of_put with items.
  - apply length_insert.
  - intros j Hj. apply list_lookup_insert_ne. congruence.
  - rewrite insert_take_drop by assumption.
    rewrite cons_middle, app_assoc, drop_app_length'; [reflexivity|].
    rewrite length_app, length_take. simpl. lia.
Qed.

(** C10.  A merge that returns has changed nothing but [spec.overrides]:
    every other key of the document and of [spec] is bound as before, in the
    same order, [spec] and [overrides] being added last where they were
    missing; every entry keeps its index; an entry that does not carry the
    name and namespace of the inputs is as it was; and the list grows only
    by the new entry at its end. *)
Theorem merge_override_frame d d' modified :
  merge_override namespace name d = Ok (d', modified) ->
  exists cv cv' sp sp' items items',
    d = JObj cv /\ d' = JObj cv'
    /\ default (JObj []) (Py.lookup "spec" cv) = JObj sp
    /\ Py.lookup "spec" cv' = Some (JObj sp')
    /\ default (JArr []) (Py.lookup "overrides" sp) = JArr items
    /\ Py.lookup "overrides" sp' = Some (JArr items')
    /\ same_except "spec" cv cv'
    /\ same_except "overrides" sp sp'
    /\ (forall j x, items !! j = Some x ->
                    matches namespace name x = false ->
                    items' !! j = Some x)
    /\ (forall j x, items !! j = Some x ->
                    items' !! j = Some x
                    \/ (matches namespace name x = true
                        /\ items' !! j = Some (set_unmanaged x)))
    /\ (items' = items
        \/ (length items' = length items /\ modified = true)
        \/ (items' = items ++ [new_override namespace name]
            /\ modified = true)).
Proof.
  intros H.
  destruct (merge_override_cases _ _ _ _ _ H) as (items & Hd & Hcases).
  assert (Hput : forall items',
             d' = put_overrides d items' ->
             exists cv cv' sp sp',
               d = JObj cv /\ d' = JObj cv'
               /\ default (JObj []) (Py.lookup "spec" cv) = JObj sp
               /\ Py.lookup "spec" cv' = Some (JObj sp')
               /\ default (JArr []) (Py.lookup "overrides" sp) = JArr items
               /\ Py.lookup "overrides" sp' = Some (JArr items')
               /\ same_except "spec" cv cv'
               /\ same_except "overrides" sp sp').
  { intros items' ->. now apply put_overrides_frame. }
  destruct Hcases as [(Hall & Hd' & ->)|(pre & e & post & -> & Hpre & He & Hd' & ->)].
  - destruct (Hput _ Hd') as (cv & cv' & sp & sp' & H1 & H2 & H3 & H4 & H5 & H6 & H7 & H8).
    exists cv, cv', sp, sp', items, (items ++ [new_override namespace name]).
    repeat split; try assumption; try (now apply H7); try (now apply H8).
    + intros j x Hj _. now apply lookup_app_l_Some.
    + intros j x Hj. left. now apply lookup_app_l_Some.
    + right; right. auto.
  - destruct (Hput _ Hd') as (cv & cv' & sp & sp' & H1 & H2 & H3 & H4 & H5 & H6 & H7 & H8).
    exists cv, cv', sp, sp', (pre ++ e :: post), (pre ++ visit e :: post).
    assert (Hins : pre ++ visit e :: post
                   = <[length pre := visit e]> (pre ++ e :: post)).
    { rewrite insert_app_r_alt by lia. now rewrite Nat.sub_diag. }
    repeat split; try assumption; try (now apply H7); try (now apply H8).
    + intros j x Hj Hx. rewrite Hins, list_lookup_insert_ne; [assumption|].
      intros <-. rewrite list_lookup_middle in Hj by reflexivity. congruence.
    + intros j x Hj. destruct (decide (j = length pre)) as [->|Hne].
      * rewrite list_lookup_middle in Hj by reflexivity. injection Hj as <-.
        rewrite list_lookup_middle by reflexivity. unfold visit.
        destruct (Py.truthy (unmanaged_of e)); auto.
      * left. rewrite Hins, list_lookup_insert_ne; auto.
    + unfold visit. destruct (Py.truthy (unmanaged_of e)); [now left|].
      right; left. split; [now rewrite !length_app|reflexivity].
Qed.

End Frame.

(** ** The properties on the sample documents *)

Module Samples.

(** The end-to-end example: no overrides at first, one fetch, and an apply of
    the document that now holds the override. *)
Example end_to_end :
  merge_override ns0 name0 (annotated [])
  = Ok (annotated [entry ns0 name0 (JBool true)], true)
  /\ main stub 1 ns0 name0 [[Byte.x31]]
     = (Exited, @Machine stub [] [OcGet; OcApply (InText "1 override")]).
Proof. split; reflexivity. Qed.

(** The test of lines 16-17 on well and ill shaped documents. *)
Example has_annotation_samples :
  has_annotation (annotated []) = Ok true
  /\ has_annotation unannotated = Ok false
  /\ has_annotation unannotated_bare = Ok false
  /\ has_annotation (JArr []) = Raise AttributeError
  /\ has_annotation (JObj [("metadata", JNull)]) = Raise AttributeError
  /\ has_annotation (JObj [("metadata", JObj [("annotations", JNull)])])
     = Raise TypeError.
Proof. repeat split. Qed.

(** Overrides of another shape make the merge raise. *)
Example merge_override_ill_shaped :
  merge_override ns0 name0 (annotated [JInt 1]) = Raise AttributeError
  /\ merge_override ns0 name0 (JObj [("spec", JNull)]) = Raise AttributeError
  /\ merge_override ns0 name0 (JObj [("spec", JObj [("overrides", JNull)])])
     = Raise TypeError
  /\ merge_override ns0 name0 (JObj [("spec", JObj [("overrides", JObj [])])])
     = Raise AttributeError
  /\ merge_override ns0 name0
       (annotated [entry ns0 name0 (JBool true); JInt 1])
     = Ok (annotated [entry ns0 name0 (JBool true); JInt 1], false).
Proof. repeat split. Qed.

(** C1 at a document with one override, for another deployment. *)
Lemma appends_witness :
  merge_override ns0 name0 (annotated [other])
  = Ok (annotated [other; new_override ns0 name0], true)
  /\ overrides_of (annotated [other; new_override ns0 name0])
     = Some [other; new_override ns0 name0]
  /\ length [other; new_override ns0 name0] = 2.
Proof.
  apply (merge_override_appends ns0 name0 (annotated [other]) [other]).
  - reflexivity.
  - repeat constructor.
  - repeat constructor.
Defined.

(** C2 as stated fails on a list with two entries for the target when the
    first is unmanaged and the second is not: the second entry has a falsy
    [unmanaged] field, and yet the merge leaves it as it is and does not set
    [modified]. *)
Lemma later_falsy_entry_not_flipped :
  let stale := entry ns0 name0 (JBool false) in
  let d := annotated [entry ns0 name0 (JBool true); stale] in
  overrides_of d = Some [entry ns0 name0 (JBool true); stale]
  /\ matches ns0 name0 stale = true
  /\ Py.truthy (unmanaged_of stale) = false
  /\ merge_override ns0 name0 d = Ok (d, false)
  /\ ~ (exists d', merge_override ns0 name0 d = Ok (d', true)).
Proof.
  repeat split. intros [d' H]. vm_compute in H. discriminate.
Qed.

(** C2 (amended) where the first entry for the target is the stale one. *)
Lemma flips_witness :
  let items' := [other; set_unmanaged (entry ns0 name0 (JBool false));
                 entry ns0 name0 (JBool true)] in
  merge_override ns0 name0
    (annotated [other; entry ns0 name0 (JBool false);
                entry ns0 name0 (JBool true)])
  = Ok (annotated items', true)
  /\ overrides_of (annotated items') = Some items'
  /\ unmanaged_of (set_unmanaged (entry ns0 name0 (JBool false))) = JBool true
  /\ matches ns0 name0 (set_unmanaged (entry ns0 name0 (JBool false))) = true
  /\ length items' = 3.
Proof.
  apply (merge_override_flips ns0 name0
           (annotated [other; entry ns0 name0 (JBool false);
                       entry ns0 name0 (JBool true)])
           [other] (entry ns0 name0 (JBool false))
           [entry ns0 name0 (JBool true)]).
  - reflexivity.
  - repeat constructor.
  - reflexivity.
  - reflexivity.
Defined.

(** C3 as stated fails on a list that already holds two unmanaged entries
    for the target: the merge returns and both are still there. *)
Lemma two_unmanaged_entries_remain :
  let d := annotated [entry ns0 name0 (JBool true);
                      entry ns0 name0 (JBool true)] in
  merge_override ns0 name0 d = Ok (d, false)
  /\ overrides_of d = Some [entry ns0 name0 (JBool true);
                            entry ns0 name0 (JBool true)]
  /\ count (unmanaged_target ns0 name0)
           [entry ns0 name0 (JBool true); entry ns0 name0 (JBool true)] = 2.
Proof. repeat split. Qed.

(** C3 (amended) at a list with one stale entry for the target. *)
Lemma one_unmanaged_witness :
  exists items',
    overrides_of (annotated [other; entry ns0 name0 (JBool true)])
    = Some items'
    /\ count (matches ns0 name0) items' = 1
    /\ count (unmanaged_target ns0 name0) items' = 1.
Proof.
  apply (merge_override_one_unmanaged ns0 name0
           (annotated [other; entry ns0 name0 (JBool false)])
           (annotated [other; entry ns0 name0 (JBool true)]) true
           [other; entry ns0 name0 (JBool false)]).
  - reflexivity.
  - reflexivity.
  - vm_compute. lia.
  - repeat constructor.
Defined.

(** C4 as stated fails on a list with two entries for the target when the
    first is stale and the second is unmanaged: the list holds an entry for
    the target with [unmanaged] equal to [true], and yet the merge changes
    the document, sets [modified], and the run applies the document. *)
Lemma earlier_stale_entry_is_flipped :
  let kept := entry ns0 name0 (JBool true) in
  let d := annotated [entry ns0 name0 (JBool false); kept] in
  overrides_of d = Some [entry ns0 name0 (JBool false); kept]
  /\ matches ns0 name0 kept = true
  /\ unmanaged_of kept = JBool true
  /\ merge_override ns0 name0 d = Ok (annotated [kept; kept], true)
  /\ annotated [kept; kept] <> d
  /\ json_loads stub [Byte.x33] = Some d
  /\ main stub 1 ns0 name0 [[Byte.x33]]
     = (Exited, @Machine stub [] [OcGet; OcApply (InText "more")]).
Proof. repeat split. discriminate. Qed.

(** C4 (amended) on the stub cluster, whose third output holds one
    unmanaged entry for the target. *)
Lemma no_apply_witness :
  let d := annotated [entry ns0 name0 (JBool true)] in
  merge_override ns0 name0 d = Ok (d, false)
  /\ (forall m : machine stub, commit d false m = m)
  /\ (forall fuel w m,
         ensure_annotated fuel (Machine w []) = (Annotated d, m) ->
         main stub fuel ns0 name0 w = (Exited, m)
         /\ final_applies (trace m) = []).
Proof.
  apply (already_unmanaged_no_apply stub ns0 name0
           (annotated [entry ns0 name0 (JBool true)])
           [] (entry ns0 name0 (JBool true)) []).
  - reflexivity.
  - constructor.
  - reflexivity.
  - reflexivity.
Defined.

(** C5 from the document of the end-to-end example: no overrides at first. *)
Lemma idempotent_witness :
  merge_override ns0 name0 (annotated [new_override ns0 name0])
  = Ok (annotated [new_override ns0 name0], false)
  /\ exists items',
       overrides_of (annotated [new_override ns0 name0]) = Some items'
       /\ exists pre e post,
            items' = pre ++ e :: post
            /\ Forall (fun x => matches ns0 name0 x = false) pre
            /\ matches ns0 name0 e = true
            /\ Py.truthy (unmanaged_of e) = true.
Proof.
  apply (merge_override_idempotent ns0 name0 (annotated [])
           (annotated [new_override ns0 name0]) true).
  reflexivity.
Defined.

(** C6 on the stub of the specification: a fetch without the annotation,
    then a fetch with it. *)
Lemma bootstrap_witness :
  trace (turns 1 (@Machine stub [[Byte.x30]; [Byte.x31]] []))
  = turns_trace (fetches 1 (@Machine stub [[Byte.x30]; [Byte.x31]] []))
  /\ main stub 1 ns0 name0 [[Byte.x30]; [Byte.x31]]
     = (Hung, turns 1 (@Machine stub [[Byte.x30]; [Byte.x31]] []))
  /\ (forall fuel,
         ensure_annotated (1 + fuel) (@Machine stub [[Byte.x30]; [Byte.x31]] [])
         = ensure_annotated fuel
             (turns 1 (@Machine stub [[Byte.x30]; [Byte.x31]] [])))
  /\ (forall fuel clusterversion,
         json_loads stub
           (fst (run_get (turns 1 (@Machine stub [[Byte.x30]; [Byte.x31]] []))))
         = Some clusterversion ->
         has_annotation clusterversion = Ok true ->
         ensure_annotated (1 + S fuel)
           (@Machine stub [[Byte.x30]; [Byte.x31]] [])
         = (Annotated clusterversion,
            snd (run_get (turns 1 (@Machine stub [[Byte.x30]; [Byte.x31]] []))))).
Proof.
  apply (proj1 (merge_only_when_annotated stub ns0 name0)
           1 [[Byte.x30]; [Byte.x31]]).
  reflexivity.
Defined.

(** The run of that stub: fetch, apply of the bytes fetched, fetch, and the
    apply of the merged document. *)
Example bootstrap_run :
  main stub 2 ns0 name0 [[Byte.x30]; [Byte.x31]]
  = (Exited,
     @Machine stub []
       [OcGet; OcApply (InBytes [Byte.x30]); OcGet;
        OcApply (InText "1 override")]).
Proof. reflexivity. Qed.

(** C7 at a document without [spec]. *)
Lemma creates_missing_witness :
  Py.setdefault unannotated_bare "spec" (JObj [])
  = Ok (JObj [], JObj [("kind", JStr "ClusterVersion"); ("spec", JObj [])])
  /\ merge_override ns0 name0 unannotated_bare
     = Ok (JObj [("kind", JStr "ClusterVersion");
                 ("spec",
                  JObj [("overrides", JArr [new_override ns0 name0])])],
           true).
Proof.
  apply (proj1 (merge_override_creates_missing ns0 name0
                  [("kind", JStr "ClusterVersion")])).
  reflexivity.
Defined.

(** C8 on a stub whose second output is not JSON. *)
Lemma parse_error_witness :
  main stub 2 ns0 name0 [[Byte.x30]; [Byte.x7b]]
  = (Crashed JSONDecodeError,
     snd (run_get (turns 1 (@Machine stub [[Byte.x30]; [Byte.x7b]] []))))
  /\ trace (snd (run_get (turns 1 (@Machine stub [[Byte.x30]; [Byte.x7b]] []))))
     = turns_trace (fetches 1 (@Machine stub [[Byte.x30]; [Byte.x7b]] []))
       ++ [OcGet]
  /\ exit_status (Crashed JSONDecodeError) = Some 1%Z.
Proof.
  apply (parse_error_is_fatal stub ns0 name0 1 0 [[Byte.x30]; [Byte.x7b]]).
  - reflexivity.
  - reflexivity.
Defined.

(** C9 at a list with two stale entries for the target after another
    entry: only the first of the two is flipped. *)
Lemma first_match_only_witness :
  let stale := entry ns0 name0 (JBool false) in
  let d := annotated [other; stale; stale] in
  merge_override ns0 name0 d
  = Ok (put_overrides d (<[1 := visit stale]> [other; stale; stale]),
        negb (Py.truthy (unmanaged_of stale)))
  /\ overrides_of (put_overrides d (<[1 := visit stale]> [other; stale; stale]))
     = Some (<[1 := visit stale]> [other; stale; stale])
  /\ length (<[1 := visit stale]> [other; stale; stale]) = 3
  /\ (forall j, j <> 1 ->
                <[1 := visit stale]> [other; stale; stale] !! j
                = [other; stale; stale] !! j)
  /\ drop 2 (<[1 := visit stale]> [other; stale; stale]) = [stale].
Proof.
  apply (merge_override_first_match_only ns0 name0
           (annotated [other; entry ns0 name0 (JBool false);
                       entry ns0 name0 (JBool false)])
           [other; entry ns0 name0 (JBool false);
            entry ns0 name0 (JBool false)]
           1 (entry ns0 name0 (JBool false))).
  - reflexivity.
  - reflexivity.
  - reflexivity.
  - repeat constructor.
Defined.

Example first_match_only_run :
  merge_override ns0 name0
    (annotated [other; entry ns0 name0 (JBool false);
                entry ns0 name0 (JBool false)])
  = Ok (annotated [other; entry ns0 name0 (JBool true);
                   entry ns0 name0 (JBool false)],
        true).
Proof. reflexivity. Qed.

(** C10 at a document with one override, for another deployment. *)
Lemma frame_witness :
  exists cv cv' sp sp' items items',
    annotated [other] = JObj cv
    /\ annotated [other; new_override ns0 name0] = JObj cv'
    /\ default (JObj []) (Py.lookup "spec" cv) = JObj sp
    /\ Py.lookup "spec" cv' = Some (JObj sp')
    /\ default (JArr []) (Py.lookup "overrides" sp) = JArr items
    /\ Py.lookup "overrides" sp' = Some (JArr items')
    /\ same_except "spec" cv cv'
    /\ same_except "overrides" sp sp'
    /\ (forall j x, items !! j = Some x ->
                    matches ns0 name0 x = false ->
                    items' !! j = Some x)
    /\ (forall j x, items !! j = Some x ->
                    items' !! j = Some x
                    \/ (matches ns0 name0 x = true
                        /\ items' !! j = Some (set_unmanaged x)))
    /\ (items' = items
        \/ (length items' = length items /\ true = true)
        \/ (items' = items ++ [new_override ns0 name0] /\ true = true)).
Proof.
  apply (merge_override_frame ns0 name0 (annotated [other])
           (annotated [other; new_override ns0 name0]) true).
  reflexivity.
Defined.

End Samples.

(** ** More on the merge *)

Section MergeMore.
Variables namespace name : string.

(** Merging twice, as a fact about the merge alone. *)
Lemma merge_override_again d d' modified :
  merge_override namespace name d = Ok (d', modified) ->
  merge_override namespace name d' = Ok (d', false).
Proof.
  intros H.
  destruct (merge_override_cases _ _ _ _ _ H) as (items & Hd & Hcases).
  destruct Hcases as [(Hall & -> & _)|(pre & e & post & -> & Hpre & He & -> & _)].
  - apply merge_override_already
      with items (new_override namespace name) []; auto.
    + now apply overrides_of_put with items.
    + apply matches_new_override.
  - apply merge_override_already with pre (visit e) post; auto.
    + now apply overrides_of_put with (pre ++ e :: post).
    + now rewrite matches_visit.
    + apply truthy_visit. now apply matches_entry in He.
Qed.

(** Writing the overrides back leaves [metadata] alone. *)
Lemma has_annotation_put d items items' :
  overrides_of d = Some items ->
  has_annotation (put_overrides d items') = has_annotation d.
Proof.
  destruct d as [| | | | | |cv]; try discriminate.
  unfold overrides_of, put_overrides.
  destruct (default (JObj []) (Py.lookup "spec" cv)) as [| | | | | |sp];
    try discriminate.
  intros _. unfold has_annotation, Py.get.
  now rewrite PyFacts.lookup_setitem_ne by discriminate.
Qed.

Lemma has_annotation_merged d d' modified :
  merge_override namespace name d = Ok (d', modified) ->
  has_annotation d' = has_annotation d.
Proof.
  intros H.
  destruct (merge_override_cases _ _ _ _ _ H) as (items & Hd & Hcases).
  destruct Hcases as [(_ & -> & _)|(pre & e & post & -> & _ & _ & -> & _)];
    now apply has_annotation_put with items + apply has_annotation_put
      with (pre ++ e :: post).
Qed.

(** [modified] is unset exactly when the document is as it was. *)
Lemma modified_iff_changed d d' modified :
  merge_override namespace name d = Ok (d', modified) ->
  modified = false <-> d' = d.
Proof.
  intros H.
  destruct (merge_override_cases _ _ _ _ _ H) as (items & Hd & Hcases).
  destruct Hcases as [(_ & -> & ->)|(pre & e & post & -> & _ & He & -> & ->)].
  - split; [discriminate|]. intros Heq. exfalso.
    apply (f_equal overrides_of) in Heq.
    rewrite (overrides_of_put _ _ _ Hd), Hd in Heq.
    injection Heq as Heq. apply (f_equal length) in Heq.
    rewrite length_app in Heq. simpl in Heq. lia.
  - destruct (Py.truthy (unmanaged_of e)) eqn:Hu; cbn [negb].
    + split; [intros _|reflexivity].
      rewrite (visit_truthy _ Hu). apply put_stored; [assumption|].
      now destruct pre.
    + split; [discriminate|]. intros Heq. exfalso.
      apply (f_equal overrides_of) in Heq.
      rewrite (overrides_of_put _ _ _ Hd), Hd in Heq.
      injection Heq as Heq. apply app_inv_head in Heq.
      injection Heq as Heq. rewrite (visit_falsy _ Hu) in Heq.
      apply matches_entry in He.
      pose proof (unmanaged_set_unmanaged e He) as Hset.
      rewrite Heq in Hset. rewrite Hset in Hu. discriminate.
Qed.

(** X5.  A merge that returns leaves the test of lines 16-17 with the answer
    it had: [metadata] is not touched, so the merged document carries the
    annotation exactly when the fetched one did. *)
Theorem merge_override_keeps_annotation d d' modified :
  merge_override namespace name d = Ok (d', modified) ->
  has_annotation d' = has_annotation d.
Proof.
  intros H.
  destruct (merge_override_cases _ _ _ _ _ H) as (items & Hd & Hcases).
  destruct Hcases as [(_ & -> & _)|(pre & e & post & -> & _ & _ & -> & _)].
  - now apply has_annotation_put with items.
  - now apply has_annotation_put with (pre ++ e :: post).
Qed.

(** X6.  [modified] tells whether the document changed: a merge that returns
    with [modified] unset returns the document it was given, and one that
    returns with [modified] set returns a different document. *)
Theorem merge_override_modified_iff d d' modified :
  merge_override namespace name d = Ok (d', modified) ->
  (modified = false -> d' = d) /\ (modified = true -> d' <> d).
Proof.
  intros H. pose proof (modified_iff_changed _ _ _ H) as [H1 H2].
  split; [exact H1|]. intros -> Heq. specialize (H2 Heq). discriminate.
Qed.

(** X7.  The merge adds an entry for the inputs only where there was none:
    after a merge that returns, the overrides hold as many entries with the
    name and namespace of the inputs as before, or one if they held none. *)
Theorem merge_override_count d d' modified items :
  merge_override namespace name d = Ok (d', modified) ->
  overrides_of d = Some items ->
  exists items',
    overrides_of d' = Some items'
    /\ count (matches namespace name) items'
       = Nat.max 1 (count (matches namespace name) items).
Proof.
  intros H Hd.
  destruct (merge_override_cases _ _ _ _ _ H) as (items0 & Hd0 & Hcases).
  assert (items0 = items) as -> by congruence.
  destruct Hcases as [(Hall & -> & _)|(pre & e & post & -> & Hpre & He & -> & _)].
  - eexists. split; [now apply overrides_of_put with items|].
    rewrite count_app, count_cons, matches_new_override.
    rewrite (count_passed namespace name (matches namespace name)) by auto.
    reflexivity.
  - eexists. split; [now apply overrides_of_put with (pre ++ e :: post)|].
    rewrite !count_app, !count_cons, matches_visit, He. lia.
Qed.

(** X8.  The merge writes no field of an entry but [unmanaged]: after a merge
    that returns, every dictionary of the overrides is a dictionary at the
    same index that binds every other key as before. *)
Theorem merge_override_keeps_fields d d' modified (items : list json) :
  merge_override namespace name d = Ok (d', modified) ->
  overrides_of d = Some items ->
  exists items' : list json,
    overrides_of d' = Some items'
    /\ forall j o,
         items !! j = Some (JObj o) ->
         exists o',
           items' !! j = Some (JObj o')
           /\ forall k, k <> "unmanaged" -> Py.lookup k o' = Py.lookup k o.
Proof.
  intros H Hd.
  destruct (merge_override_cases _ _ _ _ _ H) as (items0 & Hd0 & Hcases).
  assert (items0 = items) as -> by congruence.
  destruct Hcases as [(Hall & -> & _)|(pre & e & post & -> & Hpre & He & -> & _)].
  - eexists. split; [now apply overrides_of_put with items|].
    intros j o Hj. exists o. split; [now apply lookup_app_l_Some|auto].
  - eexists. split; [now apply overrides_of_put with (pre ++ e :: post)|].
    assert (Hins : pre ++ visit e :: post
                   = <[length pre := visit e]> (pre ++ e :: post)).
    { rewrite insert_app_r_alt by lia. now rewrite Nat.sub_diag. }
    intros j o Hj. destruct (decide (j = length pre)) as [->|Hne].
    + rewrite list_lookup_middle in Hj by reflexivity. injection Hj as ->.
      rewrite list_lookup_middle by reflexivity. unfold visit.
      destruct (Py.truthy (unmanaged_of (JObj o))).
      * exists o. auto.
      * eexists. split; [reflexivity|]. intros k Hk.
        now apply PyFacts.lookup_setitem_ne.
    + exists o. split; [|auto].
      rewrite Hins, list_lookup_insert_ne; auto.
Qed.

Lemma scannable_exhausted items :
  Forall (fun x => passed namespace name x = true) items ->
  scannable namespace name items = true.
Proof.
  induction 1 as [|e items He _ IH]; [reflexivity|].
  apply passed_iff in He as [He _]. cbn [scannable].
  now rewrite He, IH, orb_true_r.
Qed.

Lemma scannable_break pre e post :
  Forall (fun x => passed namespace name x = true) pre ->
  matches namespace name e = true ->
  scannable namespace name (pre ++ e :: post) = true.
Proof.
  intros Hpre He. induction Hpre as [|p pre Hp _ IH]; cbn [app scannable].
  - now rewrite He, (matches_entry _ _ _ He).
  - apply passed_iff in Hp as [Hp _]. now rewrite Hp, IH, orb_true_r.
Qed.

Lemma merge_loop_scannable items :
  merge_loop namespace name items
  = if scannable namespace name items
    then merge_loop namespace name items
    else Raise AttributeError.
Proof.
  induction items as [|e items IH]; [reflexivity|].
  cbn [scannable]. destruct (is_entry e) eqn:Ee; cbn [andb];
    [|now apply merge_loop_not_entry].
  destruct e as [| | | | | |o]; try discriminate.
  cbn [matches]. rewrite merge_loop_entry.
  destruct (is_target namespace name o); cbn [orb]; [reflexivity|].
  destruct (scannable namespace name items); [reflexivity|].
  now rewrite IH.
Qed.

Lemma merge_loop_returns items :
  scannable namespace name items = true ->
  exists found, merge_loop namespace name items = Ok found.
Proof.
  induction items as [|e items IH]; [eauto|].
  cbn [scannable]. intros [Ee H]%andb_prop.
  destruct e as [| | | | | |o]; try discriminate.
  rewrite merge_loop_entry. cbn [matches] in H.
  destruct (is_target namespace name o); [eauto|].
  destruct (IH H) as [found ->]. cbn [bind].
  destruct found as [[rest' m]|]; eauto.
Qed.

(** X9.  The merge returns exactly on the documents whose [spec] (when
    present) is a dictionary, whose [spec.overrides] (when present) is a
    list, and whose overrides are dictionaries up to and including the first
    one for the inputs; the items after that one are of no account. *)
Theorem merge_override_returns_iff d :
  (exists r, merge_override namespace name d = Ok r)
  <-> exists items,
        overrides_of d = Some items /\ scannable namespace name items = true.
Proof.
  split.
  - intros [[d' modified] H].
    destruct (merge_override_cases _ _ _ _ _ H) as (items & Hd & Hcases).
    exists items. split; [assumption|].
    destruct Hcases as [(Hall & _)|(pre & e & post & -> & Hpre & He & _)].
    + now apply scannable_exhausted.
    + now apply scannable_break.
  - intros (items & Hd & Hs).
    rewrite (merge_override_eq _ _ _ _ Hd).
    destruct (merge_loop_returns _ Hs) as [found ->]. cbn [bind]. eauto.
Qed.

(** The merge on overrides the loop does not get through. *)
Lemma merge_override_not_scannable d items :
  overrides_of d = Some items ->
  scannable namespace name items = false ->
  merge_override namespace name d = Raise AttributeError.
Proof.
  intros Hd Hs. rewrite (merge_override_eq _ _ _ _ Hd).
  now rewrite merge_loop_scannable, Hs.
Qed.

(** X16.  Line 29 tests the truth value of [unmanaged], not whether it is
    [true]: when the first entry for the inputs has any truthy value there (a
    non-empty string, a non-zero number, ...), the merge returns the document
    as it was, that value included, with [modified] unset. *)
Theorem merge_override_truthy_kept d pre e post :
  overrides_of d = Some (pre ++ e :: post) ->
  Forall (fun x => passed namespace name x = true) pre ->
  matches namespace name e = true ->
  Py.truthy (unmanaged_of e) = true ->
  merge_override namespace name d = Ok (d, false).
Proof.
  intros Hd Hpre He Hu.
  rewrite (merge_override_eq _ _ _ _ Hd).
  rewrite merge_loop_break by assumption.
  rewrite Hu, (visit_truthy _ Hu). cbn [bind merged negb].
  f_equal. f_equal. apply put_stored; [assumption|].
  now destruct pre.
Qed.

End MergeMore.

(** ** More on the test of lines 16-17 *)

(** X3.  The test of lines 16-17 raises in three cases only: the document is
    not a dictionary, or [metadata] is bound to something that is not a
    dictionary ([AttributeError], for the missing [get]), or [annotations]
    is bound to something that is neither a dictionary, a list nor a string
    ([TypeError], for [in]).  Keys that are missing never raise. *)
Theorem has_annotation_raises_iff d e :
  has_annotation d = Raise e
  <-> (is_entry d = false /\ e = AttributeError)
      \/ (exists cv,
            d = JObj cv
            /\ is_entry (default (JObj []) (Py.lookup "metadata" cv)) = false
            /\ e = AttributeError)
      \/ (exists cv md,
            d = JObj cv
            /\ default (JObj []) (Py.lookup "metadata" cv) = JObj md
            /\ is_container (default (JObj []) (Py.lookup "annotations" md))
               = false
            /\ e = TypeError).
Proof.
  split.
  - destruct d as [| | | | | |cv];
      try (intros [= <-]; left; split; reflexivity).
    unfold has_annotation. cbn [Py.get bind].
    destruct (default (JObj []) (Py.lookup "metadata" cv))
      as [| | | | | |md] eqn:Hmd;
      try (intros [= <-]; right; left; exists cv; rewrite Hmd; auto).
    cbn [Py.get bind].
    destruct (default (JObj []) (Py.lookup "annotations" md))
      as [| | | | | |a] eqn:Ha; try discriminate;
      intros [= <-]; right; right; exists cv, md; rewrite Ha; auto.
  - intros [[Hd ->]|[(cv & -> & Hmd & ->)|(cv & md & -> & Hmd & Ha & ->)]].
    + now destruct d.
    + unfold has_annotation. cbn [Py.get bind].
      now destruct (default (JObj []) (Py.lookup "metadata" cv)).
    + unfold has_annotation. cbn [Py.get bind]. rewrite Hmd. cbn [Py.get bind].
      now destruct (default (JObj []) (Py.lookup "annotations" md)).
Qed.

(** ** More on the run *)

Section RunMore.
Variable h : host.
Variables namespace name : string.
Implicit Types m : machine h.

(** X1.  With fewer than two arguments after the path of the script, line 7
    or line 8 raises [IndexError]: the script ends with status 1 and has
    started no subprocess.  With two or more, the first two are the
    namespace and the name, and the others are ignored. *)
Theorem script_arguments fuel w :
  (forall argv,
      length argv < 3 ->
      script h fuel argv w = (ArgvIndexError, Machine w [])
      /\ script_exit_status ArgvIndexError = Some 1%Z)
  /\ (forall path ns n others,
         script h fuel (path :: ns :: n :: others) w
         = (Ran (fst (main h fuel ns n w)), snd (main h fuel ns n w))).
Proof.
  split.
  - intros argv Hlen. split; [|reflexivity].
    destruct argv as [|path [|ns [|n others]]]; try reflexivity.
    simpl in Hlen. lia.
  - intros path ns n others. unfold script. cbn [lookup list_lookup].
    now destruct (main h fuel ns n w).
Qed.

(** X2.  A fetched document without [metadata], or whose [metadata] has no
    [annotations], is not an error: the test answers that the annotation is
    absent, and the loop applies the bytes fetched and fetches again. *)
Theorem missing_annotations_reapplied fuel m cv :
  json_loads h (fst (run_get m)) = Some (JObj cv) ->
  Py.lookup "metadata" cv = None
  \/ (exists md, Py.lookup "metadata" cv = Some (JObj md)
                 /\ Py.lookup "annotations" md = None) ->
  has_annotation (JObj cv) = Ok false
  /\ ensure_annotated (S fuel) m = ensure_annotated fuel (turn m).
Proof.
  intros Hl Hcv.
  assert (Ha : has_annotation (JObj cv) = Ok false).
  { unfold has_annotation. cbn [Py.get bind].
    destruct Hcv as [->|(md & -> & Hmd)]; cbn [default from_option id Py.get bind].
    - reflexivity.
    - now rewrite Hmd. }
  split; [exact Ha|]. apply ensure_annotated_turn.
  unfold lacks_annotation. now rewrite Hl, Ha.
Qed.

(** X4.  When the test of lines 16-17 raises on a fetched document, at the
    first fetch or after any number of turns of the loop, the run ends there
    with that exception uncaught: the trace ends with that fetch, and
    neither the merge nor an apply follows. *)
Theorem structural_error_is_fatal k fuel w clusterversion e :
  spins k (Machine w []) = true ->
  json_loads h (fst (run_get (turns k (Machine w [])))) = Some clusterversion ->
  has_annotation clusterversion = Raise e ->
  main h (k + S fuel) namespace name w
  = (Crashed e, snd (run_get (turns k (Machine w []))))
  /\ trace (snd (run_get (turns k (Machine w []))))
     = turns_trace (fetches k (Machine w [])) ++ [OcGet].
Proof.
  intros Hs Hl Ha. split.
  - unfold main. rewrite ensure_annotated_turns by assumption.
    cbn [ensure_annotated].
    destruct (run_get (turns k (Machine w []))) as [stdout m1].
    cbn [fst] in Hl. now rewrite Hl, Ha.
  - now rewrite trace_run_get, trace_turns.
Qed.

(** X10.  When an item of the overrides that the loop of lines 27-32 looks
    at is not a dictionary, the run ends with [AttributeError] uncaught, in
    the state the loop of lines 11-21 left: the document is not applied. *)
Theorem ill_shaped_override_is_fatal fuel w clusterversion m items :
  ensure_annotated fuel (Machine w []) = (Annotated clusterversion, m) ->
  overrides_of clusterversion = Some items ->
  scannable namespace name items = false ->
  main h fuel namespace name w = (Crashed AttributeError, m)
  /\ final_applies (trace m) = [].
Proof.
  intros Hloop Hd Hs. split.
  - unfold main. rewrite Hloop.
    now rewrite (merge_override_not_scannable _ _ _ _ Hd Hs).
  - now rewrite (ensure_annotated_final_applies _ _ _ _ _ Hloop).
Qed.

(** X11.  The subprocesses of a run, in order: some turns of fetch and
    apply of the bytes fetched; then, unless the run is still in the loop, one
    more fetch; then, only when the run exits with [modified] set, one apply
    of the merged document.  Nothing is started after a crash, and every
    apply comes after a fetch. *)
Theorem main_trace fuel w :
  exists k,
    k <= fuel /\ spins k (Machine w []) = true
    /\ match fst (main h fuel namespace name w) with
       | Hung =>
           k = fuel
           /\ trace (snd (main h fuel namespace name w))
              = turns_trace (fetches k (Machine w []))
       | Crashed _ =>
           trace (snd (main h fuel namespace name w))
           = turns_trace (fetches k (Machine w [])) ++ [OcGet]
       | Exited =>
           exists cv cv' modified,
             json_loads h (fst (run_get (turns k (Machine w [])))) = Some cv
             /\ has_annotation cv = Ok true
             /\ merge_override namespace name cv = Ok (cv', modified)
             /\ trace (snd (main h fuel namespace name w))
                = turns_trace (fetches k (Machine w []))
                  ++ final_trace h cv' modified
       end.
Proof.
  unfold main.
  destruct (ensure_annotated fuel (Machine w [])) as [r m] eqn:Hloop.
  destruct (ensure_annotated_inv _ _ _ _ _ Hloop) as (k & Hk & Hs & Hr).
  exists k. split; [assumption|]. split; [assumption|].
  destruct r as [cv|e|].
  - destruct Hr as (_ & -> & Hl & Ha).
    destruct (merge_override namespace name cv) as [[cv' modified]|e] eqn:Hm;
      cbn [fst snd].
    + exists cv, cv', modified. repeat split; auto.
      unfold commit, final_trace. destruct modified.
      * unfold run_apply. cbn [trace].
        rewrite trace_run_get, trace_turns. cbn [app].
        now rewrite <- !app_assoc.
      * now rewrite trace_run_get, trace_turns.
    + now rewrite trace_run_get, trace_turns.
  - destruct Hr as (_ & -> & _). cbn [fst snd].
    now rewrite trace_run_get, trace_turns.
  - destruct Hr as (-> & ->). cbn [fst snd]. split; [reflexivity|].
    apply (trace_turns h fuel (Machine w [])).
Qed.


End RunMore.

(** ** Fuel, and clusters that behave *)

Section Fuel.
Variable h : host.
Variables namespace name : string.
Implicit Types m : machine h.

(** A loop that was left is left in the same way with more fuel. *)
Lemma ensure_annotated_more fuel extra m r m' :
  ensure_annotated fuel m = (r, m') ->
  r <> Spinning ->
  ensure_annotated (fuel + extra) m = (r, m').
Proof.
  revert m. induction fuel as [|fuel IH]; intros m H Hr.
  - injection H as <- _. congruence.
  - revert H. cbn [Nat.add ensure_annotated].
    destruct (run_get m) as [stdout m1].
    destruct (json_loads h stdout) as [cv|]; [|auto].
    destruct (has_annotation cv) as [[]|e]; auto.
Qed.

Lemma fst_run_get m : fst (run_get m) = fst (oc_get h (world m)).
Proof. unfold run_get. now destruct (oc_get h (world m)). Qed.

Lemma world_turn m :
  world (turn m)
  = oc_apply h (InBytes (fst (oc_get h (world m)))) (snd (oc_get h (world m))).
Proof. unfold turn, run_get, run_apply. now destruct (oc_get h (world m)). Qed.

(** A fetch that does not lack the annotation leaves the loop. *)
Lemma ensure_annotated_leaves fuel m :
  lacks_annotation h (fst (run_get m)) = false ->
  fst (ensure_annotated (S fuel) m) <> Spinning.
Proof.
  unfold lacks_annotation. cbn [ensure_annotated].
  destruct (run_get m) as [stdout m1]. cbn [fst].
  destruct (json_loads h stdout) as [cv|]; [|discriminate].
  destruct (has_annotation cv) as [[]|e]; discriminate.
Qed.

(** X13.  A run that has ended, by exiting or by crashing, ends in the same
    way, with the same trace and the same cluster, whatever fuel is added:
    the fuel only bounds the runs that are still in the loop. *)
Theorem main_fuel_irrelevant fuel extra w o m :
  main h fuel namespace name w = (o, m) ->
  o <> Hung ->
  main h (fuel + extra) namespace name w = (o, m).
Proof.
  unfold main.
  destruct (ensure_annotated fuel (Machine w [])) as [r m0] eqn:Hloop.
  intros H Ho.
  assert (Hr : r <> Spinning) by (intros ->; injection H as <- _; congruence).
  now rewrite (ensure_annotated_more _ extra _ _ _ Hloop Hr).
Qed.

(** X14.  On a cluster where applying the fetched bytes makes the next fetch
    carry the annotation, the loop is left after at most two fetches: every
    run with fuel for two turns ends, and ends as the run with exactly that
    fuel does. *)
Theorem main_ends_when_apply_annotates :
  (forall w : World h,
      lacks_annotation h (fst (oc_get h w)) = true ->
      exists cv,
        json_loads h
          (fst (oc_get h (oc_apply h (InBytes (fst (oc_get h w)))
                            (snd (oc_get h w)))))
        = Some cv
        /\ has_annotation cv = Ok true) ->
  forall fuel w,
    2 <= fuel ->
    fst (main h 2 namespace name w) <> Hung
    /\ main h fuel namespace name w = main h 2 namespace name w.
Proof.
  intros Hinj fuel w Hfuel.
  assert (Hloop : fst (ensure_annotated 2 (Machine w [])) <> Spinning).
  { destruct (lacks_annotation h (fst (run_get (Machine w [])))) eqn:Hl;
      [|now apply ensure_annotated_leaves].
    rewrite ensure_annotated_turn by assumption.
    apply ensure_annotated_leaves.
    rewrite fst_run_get in Hl. cbn [world] in Hl.
    destruct (Hinj w Hl) as (cv & Hcv & Ha).
    rewrite fst_run_get, world_turn. cbn [world].
    unfold lacks_annotation. now rewrite Hcv, Ha. }
  assert (Hend : fst (main h 2 namespace name w) <> Hung).
  { unfold main.
    destruct (ensure_annotated 2 (Machine w [])) as [[cv|e|] m];
      cbn [fst] in *; [|discriminate|congruence].
    destruct (merge_override namespace name cv) as [[]|]; discriminate. }
  split; [exact Hend|].
  unfold main.
  destruct (ensure_annotated 2 (Machine w [])) as [r m] eqn:Hr.
  replace fuel with (2 + (fuel - 2)) by lia.
  now rewrite (ensure_annotated_more _ (fuel - 2) _ _ _ Hr Hloop).
Qed.

(** X15.  Running the script again changes nothing: when a run has exited
    and the cluster then answers a fetch with the document that run ended
    with, a second run with the same arguments fetches once, finds nothing
    to modify, and exits without applying anything. *)
Theorem second_run_applies_nothing fuel fuel' w cv cv' modified m :
  ensure_annotated fuel (Machine w []) = (Annotated cv, m) ->
  merge_override namespace name cv = Ok (cv', modified) ->
  let w1 := world (commit cv' modified m) in
  json_loads h (fst (oc_get h w1)) = Some cv' ->
  main h fuel namespace name w = (Exited, commit cv' modified m)
  /\ main h (S fuel') namespace name w1
     = (Exited, Machine (snd (oc_get h w1)) [OcGet]).
Proof.
  intros Hloop Hm w1 Hl. split.
  - unfold main. now rewrite Hloop, Hm.
  - destruct (ensure_annotated_inv _ _ _ _ _ Hloop)
      as (k & _ & _ & _ & _ & _ & Ha).
    unfold main. cbn [ensure_annotated]. unfold run_get. cbn [world trace].
    destruct (oc_get h w1) as [stdout w2]. cbn [fst snd] in *.
    rewrite Hl, (has_annotation_merged _ _ _ _ _ Hm), Ha.
    now rewrite (merge_override_again _ _ _ _ _ Hm).
Qed.

End Fuel.

(** ** The further properties on the sample documents *)

Module MoreSamples.

(** X1 with the namespace but not the name. *)
Lemma script_arguments_witness :
  script stub 3 ["cvo-unmanage.py"; ns0] [[Byte.x31]]
  = (ArgvIndexError, @Machine stub [[Byte.x31]] [])
  /\ script_exit_status ArgvIndexError = Some 1%Z.
Proof.
  apply (proj1 (script_arguments stub 3 [[Byte.x31]])
           ["cvo-unmanage.py"; ns0]).
  simpl. lia.
Defined.

(** X2 on the sample document without [annotations]. *)
Lemma missing_annotations_witness :
  has_annotation unannotated = Ok false
  /\ ensure_annotated 2 (@Machine stub [[Byte.x30]; [Byte.x31]] [])
     = ensure_annotated 1 (turn (@Machine stub [[Byte.x30]; [Byte.x31]] [])).
Proof.
  apply (missing_annotations_reapplied stub 1
           (@Machine stub [[Byte.x30]; [Byte.x31]] [])).
  - reflexivity.
  - right. eexists. split; reflexivity.
Defined.

(** X4 on a cluster whose second output has [metadata: null]. *)
Lemma structural_error_witness :
  main odd 2 ns0 name0 [[Byte.x30]; [Byte.x34]]
  = (Crashed AttributeError,
     snd (run_get (turns 1 (@Machine odd [[Byte.x30]; [Byte.x34]] []))))
  /\ trace (snd (run_get (turns 1 (@Machine odd [[Byte.x30]; [Byte.x34]] []))))
     = turns_trace (fetches 1 (@Machine odd [[Byte.x30]; [Byte.x34]] []))
       ++ [OcGet].
Proof.
  apply (structural_error_is_fatal odd ns0 name0 1 0 [[Byte.x30]; [Byte.x34]]
           (JObj [("metadata", JNull)]) AttributeError).
  - reflexivity.
  - reflexivity.
  - reflexivity.
Defined.

(** X5 on the document of the end-to-end example. *)
Lemma keeps_annotation_witness :
  has_annotation (annotated [new_override ns0 name0])
  = has_annotation (annotated []).
Proof.
  apply (merge_override_keeps_annotation ns0 name0 (annotated [])
           (annotated [new_override ns0 name0]) true).
  reflexivity.
Defined.

(** X6 on the document of the end-to-end example. *)
Lemma modified_iff_witness :
  (true = false -> annotated [new_override ns0 name0] = annotated [])
  /\ (true = true -> annotated [new_override ns0 name0] <> annotated []).
Proof.
  apply (merge_override_modified_iff ns0 name0 (annotated [])
           (annotated [new_override ns0 name0]) true).
  reflexivity.
Defined.

(** X7 on a list with two entries for the target. *)
Lemma count_witness :
  exists items',
    overrides_of (annotated [entry ns0 name0 (JBool true);
                             entry ns0 name0 (JBool false)])
    = Some items'
    /\ count (matches ns0 name0) items'
       = Nat.max 1 (count (matches ns0 name0)
                      [entry ns0 name0 (JBool true);
                       entry ns0 name0 (JBool false)]).
Proof.
  apply (merge_override_count ns0 name0
           (annotated [entry ns0 name0 (JBool true);
                       entry ns0 name0 (JBool false)])
           (annotated [entry ns0 name0 (JBool true);
                       entry ns0 name0 (JBool false)]) false).
  - reflexivity.
  - reflexivity.
Defined.

(** X8 on a list whose entry for the target is stale. *)
Lemma keeps_fields_witness :
  exists items' : list json,
    overrides_of (annotated [other; entry ns0 name0 (JBool true)])
    = Some items'
    /\ forall j o,
         [other; entry ns0 name0 (JBool false)] !! j = Some (JObj o) ->
         exists o',
           items' !! j = Some (JObj o')
           /\ forall k, k <> "unmanaged" -> Py.lookup k o' = Py.lookup k o.
Proof.
  apply (merge_override_keeps_fields ns0 name0
           (annotated [other; entry ns0 name0 (JBool false)])
           (annotated [other; entry ns0 name0 (JBool true)]) true).
  - reflexivity.
  - reflexivity.
Defined.

(** X10 on a cluster whose output has a number before the entry for the
    target. *)
Lemma ill_shaped_override_witness :
  main odd 1 ns0 name0 [[Byte.x35]]
  = (Crashed AttributeError, @Machine odd [] [OcGet])
  /\ final_applies (trace (@Machine odd [] [OcGet])) = [].
Proof.
  apply (ill_shaped_override_is_fatal odd ns0 name0 1 [[Byte.x35]]
           (annotated [JInt 1; entry ns0 name0 (JBool false)])
           (@Machine odd [] [OcGet])
           [JInt 1; entry ns0 name0 (JBool false)]).
  - reflexivity.
  - reflexivity.
  - reflexivity.
Defined.


(** X13 on the run of the end-to-end example, with five more units of
    fuel. *)
Lemma fuel_irrelevant_witness :
  main stub (1 + 5) ns0 name0 [[Byte.x31]]
  = (Exited, @Machine stub [] [OcGet; OcApply (InText "1 override")]).
Proof.
  apply (main_fuel_irrelevant stub ns0 name0 1 5 [[Byte.x31]]).
  - reflexivity.
  - discriminate.
Defined.

(** X14 on the cluster where an apply injects the annotation. *)
Lemma ends_when_apply_annotates_witness :
  fst (main injecting 2 ns0 name0 false) <> Hung
  /\ main injecting 7 ns0 name0 false = main injecting 2 ns0 name0 false.
Proof.
  apply (main_ends_when_apply_annotates injecting ns0 name0).
  - intros [|]; [discriminate|]. intros _.
    exists (annotated []). split; reflexivity.
  - lia.
Defined.

(** The run on that cluster: two fetches, and the applies of lines 21
    and 45. *)
Example injecting_run :
  main injecting 2 ns0 name0 false
  = (Exited,
     @Machine injecting true
       [OcGet; OcApply (InBytes [Byte.x30]); OcGet;
        OcApply (InText "1 override")]).
Proof. reflexivity. Qed.

(** X15 on a stub that answers the second run with the document of the
    first. *)
Lemma second_run_witness :
  main stub 1 ns0 name0 [[Byte.x31]; [Byte.x32]]
  = (Exited,
     commit (annotated [entry ns0 name0 (JBool true)]) true
       (@Machine stub [[Byte.x32]] [OcGet]))
  /\ main stub 1 ns0 name0 [[Byte.x32]]
     = (Exited, @Machine stub [] [OcGet]).
Proof.
  apply (second_run_applies_nothing stub ns0 name0 1 0
           [[Byte.x31]; [Byte.x32]] (annotated [])
           (annotated [entry ns0 name0 (JBool true)]) true
           (@Machine stub [[Byte.x32]] [OcGet])).
  - reflexivity.
  - reflexivity.
  - reflexivity.
Defined.

(** X16 on an entry whose [unmanaged] is a string. *)
Lemma truthy_kept_witness :
  merge_override ns0 name0 (annotated [other; entry ns0 name0 (JStr "yes")])
  = Ok (annotated [other; entry ns0 name0 (JStr "yes")], false).
Proof.
  apply (merge_override_truthy_kept ns0 name0
           (annotated [other; entry ns0 name0 (JStr "yes")])
           [other] (entry ns0 name0 (JStr "yes")) []).
  - reflexivity.
  - repeat constructor.
  - reflexivity.
  - reflexivity.
Defined.

End MoreSamples.
